(** * MevResistAggregatorFHE: a shallow embedding of the contract

    Source: [src/contracts/mevResistAggregatorFHE.sol] (Solidity ^0.8.24).

    The contract is embedded as state-passing functions in a small
    state / revert / log monad.  Solidity's [uint256] arithmetic is checked:
    an overflowing [+] or [++] reverts with [Panic(0x11)].  A reverted call
    leaves the storage untouched.  The FHE library, the decryption oracle and
    [keccak256] are not part of the repository: they are taken as
    capabilities (type classes), with a plaintext stand-in used only to
    evaluate the contract on concrete inputs. *)

From Stdlib Require Import ZArith List Bool Lia.
From Stdlib Require Import Strings.Byte.
Import ListNotations.
Open Scope Z_scope.

(** ** EVM values *)

Definition uint256 := Z.
Definition address := Z.
Definition bytes32 := Z.
Definition bytes := list byte.

Definition MAX_UINT256 : Z := 2 ^ 256 - 1.
Definition MAX_UINT32 : Z := 2 ^ 32 - 1.

(** A Solidity mapping: total, every key starts at the zero value. *)
Definition mapping (V : Type) : Type := Z -> V.

Definition upd {V : Type} (m : mapping V) (k : Z) (v : V) : mapping V :=
  fun k' => if k' =? k then v else m k'.

(** The custom errors the contract declares, followed by the other ways a
    call of this contract reverts. *)
Inductive Error : Type :=
| NotOwner
| NotProvider
| PausedState
| CooldownActive
| BatchClosedOrInvalid
| ReplayAttempt
| StateMismatch
| InvalidBatchId
| InvalidCooldown
| Panic_Overflow                 (* Panic(0x11): checked arithmetic *)
| Revert_FHEStateNotInitialized  (* revert("FHE state not initialized") *)
| Revert_CheckSignatures         (* FHE.checkSignatures rejected the proof *)
| Revert_AbiDecode.              (* abi.decode on malformed data *)

Inductive Result (A : Type) : Type :=
| Ok (a : A)
| Revert (e : Error).
Arguments Ok {A} a.
Arguments Revert {A} e.

(** [a + b] on [uint256], as compiled by Solidity 0.8. *)
Definition checked_add (a b : uint256) : Result uint256 :=
  if a + b <=? MAX_UINT256 then Ok (a + b) else Revert Panic_Overflow.

(** Big-endian value of a byte string. *)
Definition be_value (bs : bytes) : Z :=
  fold_left (fun acc b => acc * 256 + Z.of_N (Byte.to_N b)) bs 0.

(** [abi.decode(data, (uint32))]: one 32-byte word, whose value must fit
    the type; shorter data or a dirty word reverts. *)
Definition abi_decode_uint32 (data : bytes) : Result Z :=
  if Z.of_nat (length data) <? 32 then Revert Revert_AbiDecode
  else
    let w := be_value (firstn 32 data) in
    if w <=? MAX_UINT32 then Ok w else Revert Revert_AbiDecode.

(** [abi.encode(uint32 v)]: the value left-padded to 32 bytes. *)
Definition abi_encode_uint32 (v : Z) : bytes :=
  repeat x00 28 ++
  map (fun i => match Byte.of_N (Z.to_N ((v / 256 ^ i) mod 256)) with
                | Some b => b
                | None => x00
                end) [3; 2; 1; 0].

(** ** Capabilities the contract calls into *)

(** [keccak256(abi.encode(cts, address(this)))], as one function of the
    encoded values. *)
Class Keccak : Type := {
  keccak256_encode : list bytes32 -> address -> bytes32
}.

Module FHE.

(** Encrypted values are handles: [bytes32] words, zero when never set. *)
Definition euint32 := bytes32.
Definition ebool := bytes32.

Definition isInitialized (v : euint32) : bool := negb (v =? 0).
Definition toBytes32 (v : euint32) : bytes32 := v.

(** The operations of the library the contract uses.  [plain32] and
    [plainBool] are the plaintexts behind the handles: what the
    decryption oracle discloses.  No contract function reads them. *)
Class Lib : Type := {
  asEuint32 : Z -> euint32;
  add : euint32 -> euint32 -> euint32;
  ge : euint32 -> euint32 -> ebool;
  select : ebool -> euint32 -> euint32 -> euint32;
  checkSignatures : uint256 -> bytes -> bytes -> bool;
  plain32 : euint32 -> Z;
  plainBool : ebool -> bool
}.

(** What the library promises about the plaintexts: 32-bit wrap-around
    addition, comparison, selection, and handles that are initialized. *)
Class Laws (L : Lib) : Prop := {
  plain_asEuint32 : forall n, 0 <= n <= MAX_UINT32 -> plain32 (asEuint32 n) = n;
  plain_add : forall a b, plain32 (add a b) = (plain32 a + plain32 b) mod 2 ^ 32;
  plain_ge : forall a b, plainBool (ge a b) = (plain32 b <=? plain32 a);
  plain_select : forall c a b,
      plain32 (select c a b) = if plainBool c then plain32 a else plain32 b;
  asEuint32_initialized : forall n, isInitialized (asEuint32 n) = true;
  select_initialized : forall c a b, isInitialized (select c a b) = true
}.

End FHE.

Import FHE.

(** ** Contract storage, events, call context *)

Record DecryptionContext : Type := mkDecryptionContext {
  batchId : uint256;
  stateHash : bytes32;
  processed : bool
}.

Definition zero_context : DecryptionContext :=
  {| batchId := 0; stateHash := 0; processed := false |}.

Record State : Type := mkState {
  owner : address;
  isProvider : mapping bool;
  paused : bool;
  cooldownSeconds : uint256;
  lastSubmissionTime : mapping uint256;
  lastDecryptionRequestTime : mapping uint256;
  currentBatchId : uint256;
  isBatchOpen : mapping bool;
  decryptionContexts : mapping DecryptionContext
}.

Inductive Event : Type :=
| OwnershipTransferred (previousOwner newOwner : address)
| ProviderAdded (provider : address)
| ProviderRemoved (provider : address)
| Paused (account : address)
| Unpaused (account : address)
| CooldownSecondsSet (oldCooldownSeconds newCooldownSeconds : uint256)
| BatchOpened (id : uint256)
| BatchClosed (id : uint256)
| DataSubmitted (provider : address) (id : uint256) (encryptedData : bytes32)
| DecryptionRequested (requestId id : uint256)
| DecryptionCompleted (requestId id : uint256) (result : Z).

(** What a call does besides changing storage: the events it emits and the
    decryption request it hands to the oracle. *)
Inductive Effect : Type :=
| Emit (e : Event)
| RequestDecryption (cts : list bytes32) (requestId : uint256).

Record MsgCtx : Type := mkCtx {
  msg_sender : address;
  block_timestamp : uint256
}.

(** Field updates. *)
Definition set_owner (v : address) (s : State) : State :=
  mkState v (isProvider s) (paused s) (cooldownSeconds s) (lastSubmissionTime s)
          (lastDecryptionRequestTime s) (currentBatchId s) (isBatchOpen s)
          (decryptionContexts s).
Definition set_isProvider (v : mapping bool) (s : State) : State :=
  mkState (owner s) v (paused s) (cooldownSeconds s) (lastSubmissionTime s)
          (lastDecryptionRequestTime s) (currentBatchId s) (isBatchOpen s)
          (decryptionContexts s).
Definition set_paused (v : bool) (s : State) : State :=
  mkState (owner s) (isProvider s) v (cooldownSeconds s) (lastSubmissionTime s)
          (lastDecryptionRequestTime s) (currentBatchId s) (isBatchOpen s)
          (decryptionContexts s).
Definition set_cooldownSeconds (v : uint256) (s : State) : State :=
  mkState (owner s) (isProvider s) (paused s) v (lastSubmissionTime s)
          (lastDecryptionRequestTime s) (currentBatchId s) (isBatchOpen s)
          (decryptionContexts s).
Definition set_lastSubmissionTime (v : mapping uint256) (s : State) : State :=
  mkState (owner s) (isProvider s) (paused s) (cooldownSeconds s) v
          (lastDecryptionRequestTime s) (currentBatchId s) (isBatchOpen s)
          (decryptionContexts s).
Definition set_lastDecryptionRequestTime (v : mapping uint256) (s : State) : State :=
  mkState (owner s) (isProvider s) (paused s) (cooldownSeconds s)
          (lastSubmissionTime s) v (currentBatchId s) (isBatchOpen s)
          (decryptionContexts s).
Definition set_currentBatchId (v : uint256) (s : State) : State :=
  mkState (owner s) (isProvider s) (paused s) (cooldownSeconds s)
          (lastSubmissionTime s) (lastDecryptionRequestTime s) v (isBatchOpen s)
          (decryptionContexts s).
Definition set_isBatchOpen (v : mapping bool) (s : State) : State :=
  mkState (owner s) (isProvider s) (paused s) (cooldownSeconds s)
          (lastSubmissionTime s) (lastDecryptionRequestTime s) (currentBatchId s) v
          (decryptionContexts s).
Definition set_decryptionContexts (v : mapping DecryptionContext) (s : State) : State :=
  mkState (owner s) (isProvider s) (paused s) (cooldownSeconds s)
          (lastSubmissionTime s) (lastDecryptionRequestTime s) (currentBatchId s)
          (isBatchOpen s) v.

Definition set_processed (v : bool) (c : DecryptionContext) : DecryptionContext :=
  {| batchId := batchId c; stateHash := stateHash c; processed := v |}.

(** ** The monad of a call: storage, revert, log *)

Definition M (A : Type) : Type := State -> Result (A * State * list Effect).

Definition ret {A : Type} (a : A) : M A := fun s => Ok (a, s, []).

Definition bind {A B : Type} (m : M A) (k : A -> M B) : M B :=
  fun s =>
    match m s with
    | Revert e => Revert e
    | Ok (a, s1, l1) =>
        match k a s1 with
        | Revert e => Revert e
        | Ok (b, s2, l2) => Ok (b, s2, l1 ++ l2)
        end
    end.

Definition revert {A : Type} (e : Error) : M A := fun _ => Revert e.
Definition read {A : Type} (f : State -> A) : M A := fun s => Ok (f s, s, []).
Definition modify (f : State -> State) : M unit := fun s => Ok (tt, f s, []).
Definition emit (e : Event) : M unit := fun s => Ok (tt, s, [Emit e]).
Definition pure_or_revert {A : Type} (r : Result A) : M A :=
  fun s => match r with Ok a => Ok (a, s, []) | Revert e => Revert e end.

Notation "x <- m ;; k" := (bind m (fun x => k))
  (at level 61, m at next level, right associativity).
Notation "m ;; k" := (bind m (fun _ => k))
  (at level 61, right associativity).

(** ** The contract *)

Section Contract.

Context {K : Keccak} {L : FHE.Lib}.

(** [address(this)]. *)
Variable this : address.

(** *** Modifiers *)

Definition onlyOwner (ctx : MsgCtx) : M unit :=
  o <- read owner ;;
  if negb (msg_sender ctx =? o) then revert NotOwner else ret tt.

Definition onlyProvider (ctx : MsgCtx) : M unit :=
  p <- read (fun s => isProvider s (msg_sender ctx)) ;;
  if negb p then revert NotProvider else ret tt.

Definition whenNotPaused : M unit :=
  p <- read paused ;;
  if p then revert PausedState else ret tt.

Definition respectCooldown (ctx : MsgCtx) : M unit :=
  last <- read (fun s => lastSubmissionTime s (msg_sender ctx)) ;;
  cd <- read cooldownSeconds ;;
  ready <- pure_or_revert (checked_add last cd) ;;
  if block_timestamp ctx <? ready then revert CooldownActive else ret tt.

(** *** Deployment *)

Definition constructor (ctx : MsgCtx) : State * list Effect :=
  ({| owner := msg_sender ctx;
      isProvider := fun _ => false;
      paused := false;
      cooldownSeconds := 0;
      lastSubmissionTime := fun _ => 0;
      lastDecryptionRequestTime := fun _ => 0;
      currentBatchId := 0;
      isBatchOpen := fun _ => false;
      decryptionContexts := fun _ => zero_context |},
   [Emit (OwnershipTransferred 0 (msg_sender ctx))]).

(** *** Access control and configuration *)

Definition transferOwnership (ctx : MsgCtx) (newOwner : address) : M unit :=
  onlyOwner ctx ;;
  o <- read owner ;;
  emit (OwnershipTransferred o newOwner) ;;
  modify (set_owner newOwner).

Definition addProvider (ctx : MsgCtx) (provider : address) : M unit :=
  onlyOwner ctx ;;
  modify (fun s => set_isProvider (upd (isProvider s) provider true) s) ;;
  emit (ProviderAdded provider).

Definition removeProvider (ctx : MsgCtx) (provider : address) : M unit :=
  onlyOwner ctx ;;
  modify (fun s => set_isProvider (upd (isProvider s) provider false) s) ;;
  emit (ProviderRemoved provider).

Definition setPaused (ctx : MsgCtx) (_paused : bool) : M unit :=
  onlyOwner ctx ;;
  if _paused then
    modify (set_paused true) ;;
    emit (Paused (msg_sender ctx))
  else
    modify (set_paused false) ;;
    emit (Unpaused (msg_sender ctx)).

Definition setCooldownSeconds (ctx : MsgCtx) (newCooldownSeconds : uint256) : M unit :=
  onlyOwner ctx ;;
  cd <- read cooldownSeconds ;;
  if newCooldownSeconds =? cd then revert InvalidCooldown
  else
    emit (CooldownSecondsSet cd newCooldownSeconds) ;;
    modify (set_cooldownSeconds newCooldownSeconds).

(** *** Batches *)

Definition openBatch (ctx : MsgCtx) : M unit :=
  onlyOwner ctx ;;
  whenNotPaused ;;
  cur <- read currentBatchId ;;
  next <- pure_or_revert (checked_add cur 1) ;;
  modify (set_currentBatchId next) ;;
  modify (fun s => set_isBatchOpen (upd (isBatchOpen s) (currentBatchId s) true) s) ;;
  id <- read currentBatchId ;;
  emit (BatchOpened id).

Definition closeBatch (ctx : MsgCtx) (id : uint256) : M unit :=
  onlyOwner ctx ;;
  whenNotPaused ;;
  open <- read (fun s => isBatchOpen s id) ;;
  if negb open then revert BatchClosedOrInvalid
  else
    modify (fun s => set_isBatchOpen (upd (isBatchOpen s) id false) s) ;;
    emit (BatchClosed id).

(** *** Submissions *)

Definition submitEncryptedData (ctx : MsgCtx) (id : uint256) (encryptedData : bytes32)
  : M unit :=
  onlyProvider ctx ;;
  whenNotPaused ;;
  respectCooldown ctx ;;
  open <- read (fun s => isBatchOpen s id) ;;
  if negb open then revert BatchClosedOrInvalid
  else
    modify (fun s => set_lastSubmissionTime
                      (upd (lastSubmissionTime s) (msg_sender ctx) (block_timestamp ctx)) s) ;;
    emit (DataSubmitted (msg_sender ctx) id encryptedData).

(** *** Aggregation and the decryption request *)

Definition _hashCiphertexts (cts : list bytes32) : bytes32 :=
  keccak256_encode cts this.

(** [euint32[2] storage]: the two slots, read and written in place. *)
Definition EncryptedPair : Type := (euint32 * euint32)%type.

Definition _initIfNeeded (encryptedValues : EncryptedPair) : EncryptedPair :=
  let v0 := if negb (isInitialized (fst encryptedValues))
            then asEuint32 0 else fst encryptedValues in
  let v1 := if negb (isInitialized (snd encryptedValues))
            then asEuint32 0 else snd encryptedValues in
  (v0, v1).

Definition _requireInitialized (encryptedValues : EncryptedPair) : M unit :=
  if negb (isInitialized (fst encryptedValues))
     || negb (isInitialized (snd encryptedValues))
  then revert Revert_FHEStateNotInitialized
  else ret tt.

(** The value the batch discloses: an encrypted 1 when the encrypted sum
    of the two slots reaches the encrypted threshold 100, else an
    encrypted 0. *)
Definition resultToDecrypt (encryptedValues : EncryptedPair) : euint32 :=
  let encryptedSum := add (fst encryptedValues) (snd encryptedValues) in
  let threshold := asEuint32 100 in
  let isAboveThreshold := ge encryptedSum threshold in
  select isAboveThreshold (asEuint32 1) (asEuint32 0).

(** [FHE.requestDecryption(cts, this.myCallback.selector)]: the oracle
    takes the handles and issues the request id [oracleId]. *)
Definition requestDecryption (cts : list bytes32) (oracleId : uint256) : M uint256 :=
  fun s => Ok (oracleId, s, [RequestDecryption cts oracleId]).

(** [oracleId] is the id the oracle answers this call's request with;
    the result is the storage array after the call. *)
Definition aggregateAndRequestDecryption
           (ctx : MsgCtx) (id : uint256) (encryptedValues : EncryptedPair)
           (oracleId : uint256) : M EncryptedPair :=
  onlyProvider ctx ;;
  whenNotPaused ;;
  last <- read (fun s => lastDecryptionRequestTime s (msg_sender ctx)) ;;
  cd <- read cooldownSeconds ;;
  ready <- pure_or_revert (checked_add last cd) ;;
  if block_timestamp ctx <? ready then revert CooldownActive
  else
    open <- read (fun s => isBatchOpen s id) ;;
    if negb open then revert BatchClosedOrInvalid
    else
      modify (fun s => set_lastDecryptionRequestTime
                        (upd (lastDecryptionRequestTime s) (msg_sender ctx)
                             (block_timestamp ctx)) s) ;;
      let encryptedValues' := _initIfNeeded encryptedValues in
      _requireInitialized encryptedValues' ;;
      let cts := [toBytes32 (resultToDecrypt encryptedValues')] in
      let hash := _hashCiphertexts cts in
      requestId <- requestDecryption cts oracleId ;;
      modify (fun s => set_decryptionContexts
                        (upd (decryptionContexts s) requestId
                             {| batchId := id; stateHash := hash; processed := false |}) s) ;;
      emit (DecryptionRequested requestId id) ;;
      ret encryptedValues'.

(** *** The decryption callback *)

(** [new bytes32[](1)]: one zero word, never filled in. *)
Definition ctsToVerify : list bytes32 := [0].

Definition myCallback (ctx : MsgCtx) (requestId : uint256) (cleartexts proof : bytes)
  : M unit :=
  c <- read (fun s => decryptionContexts s requestId) ;;
  if processed c then revert ReplayAttempt
  else
    let currentHash := _hashCiphertexts ctsToVerify in
    if negb (currentHash =? stateHash c) then revert StateMismatch
    else
      if negb (checkSignatures requestId cleartexts proof)
      then revert Revert_CheckSignatures
      else
        result <- pure_or_revert (abi_decode_uint32 cleartexts) ;;
        modify (fun s => set_decryptionContexts
                          (upd (decryptionContexts s) requestId
                               (set_processed true (decryptionContexts s requestId))) s) ;;
        bid <- read (fun s => batchId (decryptionContexts s requestId)) ;;
        emit (DecryptionCompleted requestId bid result).

(** *** Transactions *)

Inductive Call : Type :=
| Call_transferOwnership (newOwner : address)
| Call_addProvider (provider : address)
| Call_removeProvider (provider : address)
| Call_setPaused (_paused : bool)
| Call_setCooldownSeconds (newCooldownSeconds : uint256)
| Call_openBatch
| Call_closeBatch (id : uint256)
| Call_submitEncryptedData (id : uint256) (encryptedData : bytes32)
| Call_aggregateAndRequestDecryption
    (id : uint256) (encryptedValues : EncryptedPair) (oracleId : uint256)
| Call_myCallback (requestId : uint256) (cleartexts proof : bytes).

Definition dispatch (ctx : MsgCtx) (c : Call) : M unit :=
  match c with
  | Call_transferOwnership n => transferOwnership ctx n
  | Call_addProvider p => addProvider ctx p
  | Call_removeProvider p => removeProvider ctx p
  | Call_setPaused b => setPaused ctx b
  | Call_setCooldownSeconds n => setCooldownSeconds ctx n
  | Call_openBatch => openBatch ctx
  | Call_closeBatch id => closeBatch ctx id
  | Call_submitEncryptedData id d => submitEncryptedData ctx id d
  | Call_aggregateAndRequestDecryption id ev rid =>
      aggregateAndRequestDecryption ctx id ev rid ;; ret tt
  | Call_myCallback rid c p => myCallback ctx rid c p
  end.

Inductive Receipt : Type :=
| Success (log : list Effect)
| Reverted (e : Error).

(** One transaction: a revert keeps the storage as it was. *)
Definition exec (s : State) (tx : MsgCtx * Call) : State * Receipt :=
  match dispatch (fst tx) (snd tx) s with
  | Ok (_, s', log) => (s', Success log)
  | Revert e => (s, Reverted e)
  end.

Definition step (s : State) (tx : MsgCtx * Call) : State := fst (exec s tx).

(** A sequence of transactions, and the receipts it leaves. *)
Definition run (s : State) (txs : list (MsgCtx * Call)) : State :=
  fold_left step txs s.

Fixpoint receipts (s : State) (txs : list (MsgCtx * Call)) : list Receipt :=
  match txs with
  | [] => []
  | tx :: txs' => snd (exec s tx) :: receipts (step s tx) txs'
  end.

Definition reachable (s : State) : Prop :=
  exists deployer txs, s = run (fst (constructor deployer)) txs.

End Contract.

(** ** The specification's error names *)

Module Spec.

(** The error taxonomy the specification uses. *)
Inductive Error : Type :=
| Unauthorized
| SystemPaused
| CooldownActive
| InvalidBatch
| InvalidConfig
| UnknownRequest
| ReplayAttempt
| StateMismatch
| InvalidProof
| UninitializedState.

End Spec.

(** The specification's name for each way the contract reverts; an
    arithmetic panic and a decoding failure have none. *)
Definition spec_error (e : Error) : option Spec.Error :=
  match e with
  | NotOwner | NotProvider => Some Spec.Unauthorized
  | PausedState => Some Spec.SystemPaused
  | CooldownActive => Some Spec.CooldownActive
  | BatchClosedOrInvalid | InvalidBatchId => Some Spec.InvalidBatch
  | InvalidCooldown => Some Spec.InvalidConfig
  | ReplayAttempt => Some Spec.ReplayAttempt
  | StateMismatch => Some Spec.StateMismatch
  | Revert_CheckSignatures => Some Spec.InvalidProof
  | Revert_FHEStateNotInitialized => Some Spec.UninitializedState
  | Panic_Overflow | Revert_AbiDecode => None
  end.

(** ** Observations on transactions and receipts *)

(** The call registers a decryption request under the id [rid]. *)
Definition registers (rid : uint256) (tx : MsgCtx * Call) : bool :=
  match snd tx with
  | Call_aggregateAndRequestDecryption _ _ oracleId => oracleId =? rid
  | _ => false
  end.

(** The call is a callback for the request [rid]. *)
Definition is_callback (rid : uint256) (tx : MsgCtx * Call) : bool :=
  match snd tx with
  | Call_myCallback r _ _ => r =? rid
  | _ => false
  end.

Definition succeeded (r : Receipt) : bool :=
  match r with Success _ => true | Reverted _ => false end.

(** Batch ids announced by [BatchOpened] in a log. *)
Fixpoint opened_in_log (log : list Effect) : list uint256 :=
  match log with
  | [] => []
  | Emit (BatchOpened id) :: log' => id :: opened_in_log log'
  | _ :: log' => opened_in_log log'
  end.

Fixpoint opened_ids (rs : list Receipt) : list uint256 :=
  match rs with
  | [] => []
  | Success log :: rs' => opened_in_log log ++ opened_ids rs'
  | Reverted _ :: rs' => opened_ids rs'
  end.

(** The log announces [DecryptionCompleted] for the request [rid]. *)
Fixpoint completed_in_log (rid : uint256) (log : list Effect) : bool :=
  match log with
  | [] => false
  | Emit (DecryptionCompleted r _ _) :: log' => (r =? rid) || completed_in_log rid log'
  | _ :: log' => completed_in_log rid log'
  end.

Definition completes (rid : uint256) (r : Receipt) : bool :=
  match r with
  | Success log => completed_in_log rid log
  | Reverted _ => false
  end.

(** [a; a+1; ...; a+n-1]. *)
Fixpoint count_from (a : Z) (n : nat) : list Z :=
  match n with
  | O => []
  | S n' => a :: count_from (a + 1) n'
  end.

(** How many of the callbacks for [rid] in a sequence of transactions
    succeed. *)
Section Counting.

Context {K : Keccak} {L : FHE.Lib}.
Variable this : address.

Fixpoint finalizations (rid : uint256) (s : State) (txs : list (MsgCtx * Call)) : nat :=
  match txs with
  | [] => O
  | tx :: txs' =>
      ((if is_callback rid tx && succeeded (snd (exec this s tx)) then 1 else 0)
       + finalizations rid (step this s tx) txs')%nat
  end.

(** A later request under the id [rid] also carries an initialized
    handle (or the call does not use the id at all). *)
Definition keeps_handle_nonzero (rid : uint256) (tx : MsgCtx * Call) : bool :=
  match snd tx with
  | Call_aggregateAndRequestDecryption _ ev oracleId =>
      negb (oracleId =? rid)
      || isInitialized (toBytes32 (resultToDecrypt (_initIfNeeded ev)))
  | _ => true
  end.

End Counting.

(** ** A plaintext stand-in for the capabilities *)

Module Mock.

(** Handles carry their plaintext above a non-zero tag. *)
Definition tag : Z := 2 ^ 32.

Definition lib : FHE.Lib :=
  {| asEuint32 := fun n => n mod 2 ^ 32 + tag;
     add := fun a b => (a mod 2 ^ 32 + b mod 2 ^ 32) mod 2 ^ 32 + tag;
     ge := fun a b => if b mod 2 ^ 32 <=? a mod 2 ^ 32 then 2 else 1;
     select := fun c a b => (if c =? 2 then a mod 2 ^ 32 else b mod 2 ^ 32) + tag;
     checkSignatures := fun _ _ proof => negb (Nat.eqb (length proof) 0);
     plain32 := fun h => h mod 2 ^ 32;
     plainBool := fun c => c =? 2 |}.

(** A digest that tells any two one-element lists apart. *)
Definition keccak : Keccak :=
  {| keccak256_encode := fun cts self => fold_left (fun acc c => acc + c + 1) cts (self + 1) |}.

Definition contract_address : address := 4096.
Definition alice : address := 10.
Definition bob : address := 11.
Definition carol : address := 12.

Definition at_time (sender : address) (t : uint256) : MsgCtx :=
  {| msg_sender := sender; block_timestamp := t |}.

(** The storage right after alice deploys the contract. *)
Definition deployed : State :=
  fst (constructor (at_time alice 1000)).

(** Alice has made bob a provider and opened batch 1. *)
Definition ready : State :=
  run (K := keccak) (L := lib) contract_address deployed
      [(at_time alice 1001, Call_addProvider bob);
       (at_time alice 1002, Call_openBatch)].

Definition encrypted (n : Z) : euint32 := asEuint32 (Lib := lib) n.

Definition some_proof : bytes := [x01].

(** Bob's request for batch 1 over the slots encrypted(10) and
    encrypted(95); the oracle answers with the id 7. *)
Definition request_tx : MsgCtx * Call :=
  (at_time bob 1003,
   Call_aggregateAndRequestDecryption 1 (encrypted 10, encrypted 95) 7).

Definition requested : State :=
  step (K := keccak) (L := lib) contract_address ready request_tx.

(** The oracle's answer for a disclosed 1, delivered by carol, who is
    neither the owner nor a provider. *)
Definition answer_tx : MsgCtx * Call :=
  (at_time carol 1010, Call_myCallback 7 (abi_encode_uint32 1) some_proof).

(** A storage whose request 7 stores the hash of the placeholder list,
    and the storage after the callback has finalized it. *)
Definition finalizable : State :=
  set_decryptionContexts
    (upd (decryptionContexts ready) 7
         {| batchId := 1;
            stateHash := keccak256_encode (Keccak := keccak) [0] contract_address;
            processed := false |})
    ready.

Definition finalized : State :=
  step (K := keccak) (L := lib) contract_address finalizable answer_tx.

(** Alice pauses the contract while request 7 is pending. *)
Definition pause_tx : MsgCtx * Call := (at_time alice 1004, Call_setPaused true).

Definition paused_pending : State :=
  step (K := keccak) (L := lib) contract_address requested pause_tx.

(** Bob submits to batch 1 at 1003; alice then sets the cooldown to one
    minute. *)
Definition cooling : State :=
  run (K := keccak) (L := lib) contract_address ready
      [(at_time bob 1003, Call_submitEncryptedData 1 (encrypted 10));
       (at_time alice 1004, Call_setCooldownSeconds 60)].

(** Bob submits to batch 1 at 1003; alice then sets the cooldown to the
    largest [uint256]. *)
Definition long_cooldown : State :=
  run (K := keccak) (L := lib) contract_address ready
      [(at_time bob 1003, Call_submitEncryptedData 1 (encrypted 10));
       (at_time alice 1004, Call_setCooldownSeconds MAX_UINT256)].

End Mock.

(** ** Further observations *)

(** The functions that carry the [onlyOwner] modifier. *)
Definition owner_only (c : Call) : bool :=
  match c with
  | Call_transferOwnership _ | Call_addProvider _ | Call_removeProvider _
  | Call_setPaused _ | Call_setCooldownSeconds _ | Call_openBatch
  | Call_closeBatch _ => true
  | _ => false
  end.

(** What the events alone tell an observer: the owner, the providers, the
    pause flag, the cooldown, the batches, and for each request its batch
    and whether it has been completed. *)
Record View : Type := mkView {
  v_owner : address;
  v_isProvider : mapping bool;
  v_paused : bool;
  v_cooldownSeconds : uint256;
  v_currentBatchId : uint256;
  v_isBatchOpen : mapping bool;
  v_batchOf : mapping uint256;
  v_processed : mapping bool
}.

Definition empty_view : View :=
  {| v_owner := 0;
     v_isProvider := fun _ => false;
     v_paused := false;
     v_cooldownSeconds := 0;
     v_currentBatchId := 0;
     v_isBatchOpen := fun _ => false;
     v_batchOf := fun _ => 0;
     v_processed := fun _ => false |}.

Definition replay_event (v : View) (e : Event) : View :=
  match e with
  | OwnershipTransferred _ n =>
      mkView n (v_isProvider v) (v_paused v) (v_cooldownSeconds v) (v_currentBatchId v)
             (v_isBatchOpen v) (v_batchOf v) (v_processed v)
  | ProviderAdded p =>
      mkView (v_owner v) (upd (v_isProvider v) p true) (v_paused v) (v_cooldownSeconds v)
             (v_currentBatchId v) (v_isBatchOpen v) (v_batchOf v) (v_processed v)
  | ProviderRemoved p =>
      mkView (v_owner v) (upd (v_isProvider v) p false) (v_paused v) (v_cooldownSeconds v)
             (v_currentBatchId v) (v_isBatchOpen v) (v_batchOf v) (v_processed v)
  | Paused _ =>
      mkView (v_owner v) (v_isProvider v) true (v_cooldownSeconds v) (v_currentBatchId v)
             (v_isBatchOpen v) (v_batchOf v) (v_processed v)
  | Unpaused _ =>
      mkView (v_owner v) (v_isProvider v) false (v_cooldownSeconds v) (v_currentBatchId v)
             (v_isBatchOpen v) (v_batchOf v) (v_processed v)
  | CooldownSecondsSet _ n =>
      mkView (v_owner v) (v_isProvider v) (v_paused v) n (v_currentBatchId v)
             (v_isBatchOpen v) (v_batchOf v) (v_processed v)
  | BatchOpened id =>
      mkView (v_owner v) (v_isProvider v) (v_paused v) (v_cooldownSeconds v) id
             (upd (v_isBatchOpen v) id true) (v_batchOf v) (v_processed v)
  | BatchClosed id =>
      mkView (v_owner v) (v_isProvider v) (v_paused v) (v_cooldownSeconds v)
             (v_currentBatchId v) (upd (v_isBatchOpen v) id false) (v_batchOf v)
             (v_processed v)
  | DataSubmitted _ _ _ => v
  | DecryptionRequested rid id =>
      mkView (v_owner v) (v_isProvider v) (v_paused v) (v_cooldownSeconds v)
             (v_currentBatchId v) (v_isBatchOpen v) (upd (v_batchOf v) rid id)
             (upd (v_processed v) rid false)
  | DecryptionCompleted rid _ _ =>
      mkView (v_owner v) (v_isProvider v) (v_paused v) (v_cooldownSeconds v)
             (v_currentBatchId v) (v_isBatchOpen v) (v_batchOf v)
             (upd (v_processed v) rid true)
  end.

Definition replay_effect (v : View) (x : Effect) : View :=
  match x with
  | Emit e => replay_event v e
  | RequestDecryption _ _ => v
  end.

Definition replay (v : View) (log : list Effect) : View :=
  fold_left replay_effect log v.

(** The log a receipt carries; a reverted call leaves none. *)
Definition log_of (r : Receipt) : list Effect :=
  match r with
  | Success log => log
  | Reverted _ => []
  end.

(** The view and the storage tell the same. *)
Definition agrees (v : View) (s : State) : Prop :=
  v_owner v = owner s
  /\ (forall a, v_isProvider v a = isProvider s a)
  /\ v_paused v = paused s
  /\ v_cooldownSeconds v = cooldownSeconds s
  /\ v_currentBatchId v = currentBatchId s
  /\ (forall id, v_isBatchOpen v id = isBatchOpen s id)
  /\ (forall rid, v_batchOf v rid = batchId (decryptionContexts s rid))
  /\ (forall rid, v_processed v rid = processed (decryptionContexts s rid)).

(** The results a log discloses through [DecryptionCompleted]. *)
Fixpoint disclosed (log : list Effect) : list Z :=
  match log with
  | [] => []
  | Emit (DecryptionCompleted _ _ result) :: log' => result :: disclosed log'
  | _ :: log' => disclosed log'
  end.

(** No stored request can pass the callback's checks: none is processed,
    and none stores the hash the callback recomputes. *)
Section Mismatched.

Context {K : Keccak}.
Variable this : address.

Definition all_mismatched (s : State) : Prop :=
  forall rid,
    processed (decryptionContexts s rid) = false
    /\ stateHash (decryptionContexts s rid) <> _hashCiphertexts this ctsToVerify.

End Mismatched.

(** ** More scenarios on the stand-in *)

Module Demo.

Import Mock.

(** Transactions from bob and carol, neither of whom is the owner. *)
Definition outsiders : list (MsgCtx * Call) :=
  [(at_time bob 1005, Call_setPaused true);
   (at_time carol 1006, Call_openBatch);
   (at_time bob 1007, Call_submitEncryptedData 1 (encrypted 10));
   (at_time carol 1008, Call_transferOwnership carol);
   (at_time bob 1009, Call_closeBatch 1)].

(** With a cooldown of one minute and bob's last submission at 1003, bob
    submits again at 1063. *)
Definition second_submission : State :=
  step (K := keccak) (L := lib) contract_address cooling
       (at_time bob 1063, Call_submitEncryptedData 1 (encrypted 95)).

(** Meanwhile alice halves the cooldown and opens a second batch. *)
Definition meanwhile : list (MsgCtx * Call) :=
  [(at_time alice 1064, Call_setCooldownSeconds 30);
   (at_time alice 1065, Call_openBatch)].

Definition third_submission : State :=
  step (K := keccak) (L := lib) contract_address
       (run (K := keccak) (L := lib) contract_address second_submission meanwhile)
       (at_time bob 1100, Call_submitEncryptedData 2 (encrypted 50)).

(** Alice closes batch 1, then opens batch 2. *)
Definition batch_closed : State :=
  step (K := keccak) (L := lib) contract_address ready (at_time alice 1003, Call_closeBatch 1).

Definition reopening : list (MsgCtx * Call) :=
  [(at_time alice 1004, Call_openBatch);
   (at_time alice 1005, Call_addProvider carol)].

(** What bob and carol try while the contract is paused. *)
Definition under_pause : list (MsgCtx * Call) :=
  [(at_time bob 1005, Call_submitEncryptedData 1 (encrypted 10));
   (at_time bob 1006,
    Call_aggregateAndRequestDecryption 1 (encrypted 10, encrypted 50) 8);
   (at_time carol 1007, Call_setPaused false)].

End Demo.

(** * Properties *)

(** ** Running a call symbolically *)

Ltac unfold_monad :=
  unfold onlyOwner, onlyProvider, whenNotPaused, respectCooldown,
    requestDecryption, _requireInitialized,
    bind, ret, revert, read, modify, emit, pure_or_revert, checked_add.

Ltac case_if :=
  match goal with
  | |- context [if ?b then _ else _] =>
      lazymatch b with
      | context [if _ then _ else _] => fail
      | _ => destruct b eqn:?
      end
  | |- context [match ?r with Ok _ => _ | Revert _ => _ end] =>
      lazymatch r with
      | context [if _ then _ else _] => fail
      | context [match _ with Ok _ => _ | Revert _ => _ end] => fail
      | _ => destruct r eqn:?
      end
  end.

Ltac run_call := unfold_monad; cbn; repeat (case_if; cbn); try reflexivity.

Section CallEquations.

Context {K : Keccak} {L : FHE.Lib}.
Variable this : address.

Lemma upd_same {V : Type} (m : mapping V) k v : upd m k v k = v.
Proof. unfold upd. now rewrite Z.eqb_refl. Qed.

Lemma upd_other {V : Type} (m : mapping V) k v k' : k' <> k -> upd m k v k' = m k'.
Proof. unfold upd. intros H. apply Z.eqb_neq in H. now rewrite H. Qed.

Lemma setPaused_eq ctx b s :
  setPaused ctx b s =
    if negb (msg_sender ctx =? owner s) then Revert NotOwner
    else Ok (tt, set_paused b s,
             [Emit (if b then Paused (msg_sender ctx) else Unpaused (msg_sender ctx))]).
Proof. unfold setPaused. destruct b; run_call. Qed.

Lemma setCooldownSeconds_eq ctx n s :
  setCooldownSeconds ctx n s =
    if negb (msg_sender ctx =? owner s) then Revert NotOwner
    else if n =? cooldownSeconds s then Revert InvalidCooldown
    else Ok (tt, set_cooldownSeconds n s, [Emit (CooldownSecondsSet (cooldownSeconds s) n)]).
Proof. unfold setCooldownSeconds. run_call. Qed.

Lemma openBatch_eq ctx s :
  openBatch ctx s =
    if negb (msg_sender ctx =? owner s) then Revert NotOwner
    else if paused s then Revert PausedState
    else if currentBatchId s + 1 <=? MAX_UINT256 then
      Ok (tt,
          set_isBatchOpen (upd (isBatchOpen s) (currentBatchId s + 1) true)
                          (set_currentBatchId (currentBatchId s + 1) s),
          [Emit (BatchOpened (currentBatchId s + 1))])
    else Revert Panic_Overflow.
Proof. unfold openBatch. run_call. Qed.

Lemma closeBatch_eq ctx id s :
  closeBatch ctx id s =
    if negb (msg_sender ctx =? owner s) then Revert NotOwner
    else if paused s then Revert PausedState
    else if negb (isBatchOpen s id) then Revert BatchClosedOrInvalid
    else Ok (tt, set_isBatchOpen (upd (isBatchOpen s) id false) s, [Emit (BatchClosed id)]).
Proof. unfold closeBatch. run_call. Qed.

Lemma submitEncryptedData_eq ctx id d s :
  submitEncryptedData ctx id d s =
    if negb (isProvider s (msg_sender ctx)) then Revert NotProvider
    else if paused s then Revert PausedState
    else if lastSubmissionTime s (msg_sender ctx) + cooldownSeconds s <=? MAX_UINT256 then
      if block_timestamp ctx <? lastSubmissionTime s (msg_sender ctx) + cooldownSeconds s
      then Revert CooldownActive
      else if negb (isBatchOpen s id) then Revert BatchClosedOrInvalid
      else Ok (tt,
               set_lastSubmissionTime
                 (upd (lastSubmissionTime s) (msg_sender ctx) (block_timestamp ctx)) s,
               [Emit (DataSubmitted (msg_sender ctx) id d)])
    else Revert Panic_Overflow.
Proof. unfold submitEncryptedData. run_call. Qed.

Lemma aggregateAndRequestDecryption_eq ctx id ev oid s :
  aggregateAndRequestDecryption this ctx id ev oid s =
    if negb (isProvider s (msg_sender ctx)) then Revert NotProvider
    else if paused s then Revert PausedState
    else if lastDecryptionRequestTime s (msg_sender ctx) + cooldownSeconds s <=? MAX_UINT256 then
      if block_timestamp ctx
         <? lastDecryptionRequestTime s (msg_sender ctx) + cooldownSeconds s
      then Revert CooldownActive
      else if negb (isBatchOpen s id) then Revert BatchClosedOrInvalid
      else if negb (isInitialized (fst (_initIfNeeded ev)))
              || negb (isInitialized (snd (_initIfNeeded ev)))
      then Revert Revert_FHEStateNotInitialized
      else Ok (_initIfNeeded ev,
               set_decryptionContexts
                 (upd (decryptionContexts s) oid
                    {| batchId := id;
                       stateHash := _hashCiphertexts this
                                      [toBytes32 (resultToDecrypt (_initIfNeeded ev))];
                       processed := false |})
                 (set_lastDecryptionRequestTime
                    (upd (lastDecryptionRequestTime s) (msg_sender ctx)
                         (block_timestamp ctx)) s),
               [RequestDecryption [toBytes32 (resultToDecrypt (_initIfNeeded ev))] oid;
                Emit (DecryptionRequested oid id)])
    else Revert Panic_Overflow.
Proof. unfold aggregateAndRequestDecryption. run_call. Qed.

Lemma myCallback_eq ctx rid cleartexts proof s :
  myCallback this ctx rid cleartexts proof s =
    if processed (decryptionContexts s rid) then Revert ReplayAttempt
    else if negb (_hashCiphertexts this ctsToVerify =? stateHash (decryptionContexts s rid))
    then Revert StateMismatch
    else if negb (checkSignatures rid cleartexts proof) then Revert Revert_CheckSignatures
    else match abi_decode_uint32 cleartexts with
         | Revert e => Revert e
         | Ok result =>
             Ok (tt,
                 set_decryptionContexts
                   (upd (decryptionContexts s) rid
                        (set_processed true (decryptionContexts s rid))) s,
                 [Emit (DecryptionCompleted rid (batchId (decryptionContexts s rid)) result)])
         end.
Proof.
  unfold myCallback. run_call.
  now rewrite upd_same.
Qed.

End CallEquations.

(** ** One transaction at a time *)

Section StepFacts.
Context {K : Keccak} {L : FHE.Lib}.
Variable this : address.

Lemma drop_result_eq {A : Type} (m : M A) s :
  (m ;; ret tt) s =
    match m s with
    | Revert e => Revert e
    | Ok (_, s', log) => Ok (tt, s', log)
    end.
Proof.
  unfold bind, ret. destruct (m s) as [[[a s'] log]|e]; [|reflexivity].
  now rewrite app_nil_r.
Qed.

Local Ltac run_tx tx :=
  destruct tx as [ctx c]; unfold step, exec; cbn [fst snd];
  destruct c; cbn [dispatch];
  [ unfold transferOwnership | unfold addProvider | unfold removeProvider
  | rewrite setPaused_eq | rewrite setCooldownSeconds_eq | rewrite openBatch_eq
  | rewrite closeBatch_eq | rewrite submitEncryptedData_eq
  | rewrite drop_result_eq, aggregateAndRequestDecryption_eq
  | rewrite myCallback_eq ];
  unfold_monad; cbn [fst snd].

Lemma exec_contexts s tx rid :
  (decryptionContexts (step this s tx) rid = decryptionContexts s rid
   /\ is_callback rid tx && succeeded (snd (exec this s tx)) = false)
  \/ (exists ctx id ev,
         tx = (ctx, Call_aggregateAndRequestDecryption id ev rid)
         /\ decryptionContexts (step this s tx) rid =
              {| batchId := id;
                 stateHash := _hashCiphertexts this
                                [toBytes32 (resultToDecrypt (_initIfNeeded ev))];
                 processed := false |})
  \/ (is_callback rid tx = true
      /\ succeeded (snd (exec this s tx)) = true
      /\ processed (decryptionContexts s rid) = false
      /\ stateHash (decryptionContexts s rid) = _hashCiphertexts this ctsToVerify
      /\ decryptionContexts (step this s tx) rid =
           set_processed true (decryptionContexts s rid)).
Proof.
  run_tx tx; unfold is_callback; cbn [snd].
  1-8: left; repeat (case_if; cbn [fst snd succeeded]); auto.
  - repeat (case_if; cbn [fst snd succeeded decryptionContexts set_decryptionContexts]); auto.
    destruct (Z.eq_dec oracleId rid) as [->|Hne].
    + right; left. exists ctx, id, encryptedValues. rewrite upd_same. auto.
    + left. rewrite upd_other by congruence. auto.
  - repeat (case_if; cbn [fst snd succeeded decryptionContexts set_decryptionContexts]);
      auto using andb_false_r.
    destruct (Z.eq_dec requestId rid) as [->|Hne].
    + right; right. rewrite upd_same, Z.eqb_refl.
      apply negb_false_iff, Z.eqb_eq in Heqb0. auto.
    + left. rewrite upd_other by congruence.
      apply Z.eqb_neq in Hne. rewrite Hne. auto.
Qed.

Lemma exec_completes s tx rid :
  completes rid (snd (exec this s tx))
  = is_callback rid tx && succeeded (snd (exec this s tx)).
Proof.
  run_tx tx; unfold is_callback; cbn [snd];
    repeat (case_if; cbn [fst snd succeeded completes completed_in_log]);
    auto using andb_false_r, andb_true_r, orb_false_r.
Qed.

Lemma run_cons s tx txs : run this s (tx :: txs) = run this (step this s tx) txs.
Proof. reflexivity. Qed.

Lemma run_app s txs1 txs2 : run this s (txs1 ++ txs2) = run this (run this s txs1) txs2.
Proof. unfold run. apply fold_left_app. Qed.

(** Batch bookkeeping of one transaction. *)
Lemma exec_batches s tx :
  (currentBatchId (step this s tx) = currentBatchId s
   /\ (forall id, isBatchOpen (step this s tx) id = true -> isBatchOpen s id = true)
   /\ opened_ids [snd (exec this s tx)] = [])
  \/ (snd tx = Call_openBatch
      /\ currentBatchId s + 1 <= MAX_UINT256
      /\ currentBatchId (step this s tx) = currentBatchId s + 1
      /\ (forall id, isBatchOpen (step this s tx) id
                     = if id =? currentBatchId s + 1 then true else isBatchOpen s id)
      /\ opened_ids [snd (exec this s tx)] = [currentBatchId s + 1]).
Proof.
  run_tx tx.
  all: repeat (case_if; cbn [fst snd opened_ids opened_in_log app
                               currentBatchId isBatchOpen set_isBatchOpen
                               set_currentBatchId]); auto.
  - right. apply Z.leb_le in Heqb1. auto 10.
  - left. repeat split; auto. intros id0. unfold upd. destruct (id0 =? id); auto; discriminate.
Qed.
End StepFacts.

(** ** Sequences of transactions: the decryption contexts *)

Section ContextTraces.

Context {K : Keccak} {L : FHE.Lib}.
Variable this : address.

Lemma exec_revert_keeps_state s tx e :
  snd (exec this s tx) = Reverted e -> exec this s tx = (s, Reverted e).
Proof.
  unfold exec. destruct (dispatch this (fst tx) (snd tx) s) as [[[u s'] log]|e'];
    cbn; intros H; [discriminate | congruence].
Qed.

Lemma callback_exec ctx rid cleartexts proof s :
  exec this s (ctx, Call_myCallback rid cleartexts proof) =
    match myCallback this ctx rid cleartexts proof s with
    | Ok (_, s', log) => (s', Success log)
    | Revert e => (s, Reverted e)
    end.
Proof. reflexivity. Qed.

(** Once [processed] is set, only a new registration under the same id
    can clear it, and no callback for the id succeeds meanwhile. *)
Lemma processed_stable rid txs : forall s,
  forallb (fun tx => negb (registers rid tx)) txs = true ->
  processed (decryptionContexts s rid) = true ->
  decryptionContexts (run this s txs) rid = decryptionContexts s rid
  /\ finalizations this rid s txs = 0%nat
  /\ forallb (fun r => negb (completes rid r)) (receipts this s txs) = true.
Proof.
  induction txs as [|tx txs IH]; intros s Hreg Hp; cbn [forallb] in *.
  - repeat split.
  - apply andb_true_iff in Hreg as [Hreg1 Hreg].
    rewrite run_cons. cbn [finalizations receipts forallb].
    rewrite exec_completes.
    destruct (exec_contexts this s tx rid)
      as [[Hsame Hfin] | [(ctx & id & ev & -> & _) | (_ & _ & Hfalse & _)]].
    + rewrite Hfin. rewrite <- Hsame in Hp.
      destruct (IH _ Hreg Hp) as (H1 & H2 & H3).
      rewrite H1, H2, H3. auto.
    + unfold registers in Hreg1. cbn in Hreg1. rewrite Z.eqb_refl in Hreg1. discriminate.
    + congruence.
Qed.

Lemma finalizations_at_most_once rid txs : forall s,
  forallb (fun tx => negb (registers rid tx)) txs = true ->
  (finalizations this rid s txs <= 1)%nat.
Proof.
  induction txs as [|tx txs IH]; intros s Hreg; cbn [forallb finalizations] in *.
  - lia.
  - apply andb_true_iff in Hreg as [Hreg1 Hreg].
    destruct (exec_contexts this s tx rid)
      as [[Hsame Hfin] | [(ctx & id & ev & -> & _) | (Hcb & Hok & _ & _ & Hset)]].
    + rewrite Hfin. specialize (IH (step this s tx) Hreg). lia.
    + unfold registers in Hreg1. cbn in Hreg1. rewrite Z.eqb_refl in Hreg1. discriminate.
    + rewrite Hcb, Hok.
      destruct (processed_stable rid txs (step this s tx) Hreg) as (_ & H0 & _).
      { rewrite Hset. reflexivity. }
      rewrite H0. cbn. lia.
Qed.

(** A context whose stored hash is not the hash of the placeholder stays
    unprocessed, as long as every new request under the id carries an
    initialized handle. *)
Lemma mismatch_stable rid txs :
  (forall h, h <> 0 -> keccak256_encode [h] this <> keccak256_encode [0] this) ->
  forall s,
  forallb (keeps_handle_nonzero rid) txs = true ->
  processed (decryptionContexts s rid) = false ->
  stateHash (decryptionContexts s rid) <> _hashCiphertexts this ctsToVerify ->
  processed (decryptionContexts (run this s txs) rid) = false
  /\ stateHash (decryptionContexts (run this s txs) rid) <> _hashCiphertexts this ctsToVerify
  /\ finalizations this rid s txs = 0%nat
  /\ forallb (fun r => negb (completes rid r)) (receipts this s txs) = true.
Proof.
  intros Hinj. induction txs as [|tx txs IH]; intros s Hk Hp Hh; cbn [forallb] in *.
  - auto.
  - apply andb_true_iff in Hk as [Hk1 Hk].
    rewrite run_cons. cbn [finalizations receipts forallb].
    rewrite exec_completes.
    destruct (exec_contexts this s tx rid)
      as [[Hsame Hfin] | [(ctx & id & ev & -> & Hnew) | (_ & _ & _ & Heq & _)]].
    + rewrite Hfin. rewrite <- Hsame in Hp, Hh.
      destruct (IH _ Hk Hp Hh) as (H1 & H2 & H3 & H4). rewrite H3, H4. auto.
    + unfold keeps_handle_nonzero in Hk1. cbn [snd] in Hk1.
      rewrite Z.eqb_refl in Hk1. cbn [negb orb] in Hk1.
      unfold isInitialized in Hk1. apply negb_true_iff, Z.eqb_neq in Hk1.
      destruct (IH (step this s (ctx, Call_aggregateAndRequestDecryption id ev rid)) Hk)
        as (H1 & H2 & H3 & H4).
      { rewrite Hnew. reflexivity. }
      { rewrite Hnew. cbn [stateHash]. unfold _hashCiphertexts, ctsToVerify.
        apply Hinj. exact Hk1. }
      rewrite H3, H4. cbn [is_callback snd andb negb]. auto.
    + congruence.
Qed.

(** A request id no call has registered keeps the zero context. *)
Lemma unregistered_stable rid txs :
  keccak256_encode [0] this <> 0 ->
  forall s,
  forallb (fun tx => negb (registers rid tx)) txs = true ->
  decryptionContexts s rid = zero_context ->
  decryptionContexts (run this s txs) rid = zero_context.
Proof.
  intros Hnz. induction txs as [|tx txs IH]; intros s Hreg Hz; cbn [forallb] in *.
  - exact Hz.
  - apply andb_true_iff in Hreg as [Hreg1 Hreg].
    rewrite run_cons. apply IH; [exact Hreg|].
    destruct (exec_contexts this s tx rid)
      as [[Hsame _] | [(ctx & id & ev & -> & _) | (_ & _ & _ & Heq & _)]].
    + congruence.
    + unfold registers in Hreg1. cbn in Hreg1. rewrite Z.eqb_refl in Hreg1. discriminate.
    + rewrite Hz in Heq. cbn in Heq. unfold _hashCiphertexts, ctsToVerify in Heq. congruence.
Qed.

(** In every reachable storage, a processed context stores the hash of
    the placeholder. *)
Lemma processed_has_placeholder_hash s :
  reachable this s ->
  forall rid, processed (decryptionContexts s rid) = true ->
              stateHash (decryptionContexts s rid) = _hashCiphertexts this ctsToVerify.
Proof.
  intros (deployer & txs & ->).
  assert (Hgen : forall txs s0,
             (forall rid, processed (decryptionContexts s0 rid) = true ->
                          stateHash (decryptionContexts s0 rid)
                          = _hashCiphertexts this ctsToVerify) ->
             forall rid, processed (decryptionContexts (run this s0 txs) rid) = true ->
                         stateHash (decryptionContexts (run this s0 txs) rid)
                         = _hashCiphertexts this ctsToVerify).
  { clear. induction txs as [|tx txs IH]; intros s0 H0; [exact H0|].
    rewrite run_cons. apply IH. intros r Hp.
    destruct (exec_contexts this s0 tx r)
      as [[Hsame _] | [(ctx & id & ev & -> & Hnew) | (_ & _ & _ & Heq & Hset)]].
    - rewrite Hsame in *. auto.
    - rewrite Hnew in Hp. discriminate.
    - rewrite Hset. exact Heq. }
  apply Hgen. cbn. discriminate.
Qed.

End ContextTraces.

(** ** The decryption callback *)

Section Callback.

Context {K : Keccak} {L : FHE.Lib}.
Variable this : address.

(** C1. Once the context stored for [rid] is processed, every callback
    for [rid], from any caller and with any cleartexts and proof, reverts
    with [ReplayAttempt] and leaves the storage as it was.  As long as the
    oracle issues the id to no new request, the stored context never
    changes again, no later callback for [rid] in a sequence of
    transactions succeeds, and no [DecryptionCompleted] for [rid] is
    emitted again; from any storage, at most one callback for [rid]
    succeeds. *)
Theorem C1_replay_guard (s : State) (rid : uint256) :
  processed (decryptionContexts s rid) = true ->
  (forall ctx cleartexts proof,
      myCallback this ctx rid cleartexts proof s = Revert ReplayAttempt
      /\ exec this s (ctx, Call_myCallback rid cleartexts proof)
         = (s, Reverted ReplayAttempt))
  /\ (forall txs,
         forallb (fun tx => negb (registers rid tx)) txs = true ->
         decryptionContexts (run this s txs) rid = decryptionContexts s rid
         /\ finalizations this rid s txs = 0%nat
         /\ forallb (fun r => negb (completes rid r)) (receipts this s txs) = true)
  /\ (forall s0 txs,
         forallb (fun tx => negb (registers rid tx)) txs = true ->
         (finalizations this rid s0 txs <= 1)%nat).
Proof.
  intros Hp. split; [|split].
  - intros ctx cleartexts proof.
    assert (E : myCallback this ctx rid cleartexts proof s = Revert ReplayAttempt)
      by (rewrite myCallback_eq, Hp; reflexivity).
    split; [exact E|]. rewrite callback_exec, E. reflexivity.
  - intros txs Hreg. now apply processed_stable.
  - intros s0 txs Hreg. now apply finalizations_at_most_once.
Qed.

(** C3. In a reachable storage, a callback whose recomputed hash differs
    from the stored [stateHash] reverts with [StateMismatch], and
    [processed] is and stays false.  A callback that reverts, for whatever
    reason, leaves the storage unchanged; the replay check, the hash check
    and the proof check come in this order.  A callback that succeeds has
    passed all three, emits exactly [DecryptionCompleted], and changes
    nothing but the [processed] flag of its request. *)
Theorem C3_callback_checks_before_finalizing
        (s : State) (rid : uint256) (ctx : MsgCtx) (cleartexts proof : bytes) :
  reachable this s ->
  let tx := (ctx, Call_myCallback rid cleartexts proof) in
  (_hashCiphertexts this ctsToVerify <> stateHash (decryptionContexts s rid) ->
   exec this s tx = (s, Reverted StateMismatch)
   /\ processed (decryptionContexts s rid) = false)
  /\ (forall e, snd (exec this s tx) = Reverted e -> fst (exec this s tx) = s)
  /\ (processed (decryptionContexts s rid) = true ->
      exec this s tx = (s, Reverted ReplayAttempt))
  /\ (processed (decryptionContexts s rid) = false ->
      _hashCiphertexts this ctsToVerify = stateHash (decryptionContexts s rid) ->
      checkSignatures rid cleartexts proof = false ->
      exec this s tx = (s, Reverted Revert_CheckSignatures))
  /\ (forall log,
         snd (exec this s tx) = Success log ->
         processed (decryptionContexts s rid) = false
         /\ _hashCiphertexts this ctsToVerify = stateHash (decryptionContexts s rid)
         /\ checkSignatures rid cleartexts proof = true
         /\ exists result,
             abi_decode_uint32 cleartexts = Ok result
             /\ log = [Emit (DecryptionCompleted rid (batchId (decryptionContexts s rid)) result)]
             /\ fst (exec this s tx)
                = set_decryptionContexts
                    (upd (decryptionContexts s) rid
                         (set_processed true (decryptionContexts s rid))) s).
Proof.
  intros Hreach tx. subst tx.
  pose proof (processed_has_placeholder_hash this s Hreach rid) as Hinv.
  rewrite callback_exec, myCallback_eq.
  split; [|split; [|split; [|split]]].
  - intros Hne. destruct (processed (decryptionContexts s rid));
      [exfalso; apply Hne; symmetry; apply Hinv; reflexivity|].
    apply Z.eqb_neq in Hne. rewrite Hne. split; reflexivity.
  - intros e. repeat (case_if; cbn [fst snd]); try reflexivity; discriminate.
  - intros ->. reflexivity.
  - intros -> Hh Hs. apply Z.eqb_eq in Hh. rewrite Hh, Hs. reflexivity.
  - intros log.
    destruct (processed (decryptionContexts s rid)); [discriminate|].
    destruct (_hashCiphertexts this ctsToVerify =? stateHash (decryptionContexts s rid))
      eqn:Hh; [|discriminate].
    destruct (checkSignatures rid cleartexts proof); [|discriminate].
    cbn [negb]. destruct (abi_decode_uint32 cleartexts) as [result|e]; [|discriminate].
    cbn [fst snd]. intros [= <-]. apply Z.eqb_eq in Hh. eauto 10.
Qed.

(** C4, as the code has it.  The contract declares no error for an
    unknown request.  A request id that no call has registered keeps the
    zero context, whose stored hash is the zero word; provided the hash of
    the placeholder list is not the zero word, every callback for such an
    id reverts with [StateMismatch] and leaves the storage unchanged. *)
Theorem C4_unregistered_request_is_a_mismatch
        (deployer : MsgCtx) (txs : list (MsgCtx * Call)) (rid : uint256) :
  keccak256_encode [0] this <> 0 ->
  forallb (fun tx => negb (registers rid tx)) txs = true ->
  let s := run this (fst (constructor deployer)) txs in
  decryptionContexts s rid = zero_context
  /\ (forall ctx cleartexts proof,
         exec this s (ctx, Call_myCallback rid cleartexts proof)
         = (s, Reverted StateMismatch))
  /\ (forall e, spec_error e <> Some Spec.UnknownRequest).
Proof.
  intros Hnz Hreg s.
  assert (Hz : decryptionContexts s rid = zero_context)
    by (apply unregistered_stable; auto).
  repeat split.
  - exact Hz.
  - intros ctx cleartexts proof.
    rewrite callback_exec, myCallback_eq, Hz. cbn [processed stateHash zero_context].
    unfold _hashCiphertexts, ctsToVerify.
    apply Z.eqb_neq in Hnz. rewrite Hnz. reflexivity.
  - intros e. destruct e; discriminate.
Qed.

(** C5. A request registered by [aggregateAndRequestDecryption] stores
    the hash of its one ciphertext handle.  When that handle is not the
    zero word and the hash tells it apart from the zero word, every later
    callback for the request id reverts with [StateMismatch], whatever the
    cleartexts and the proof: [processed] stays false and no
    [DecryptionCompleted] is emitted for it.  (Later requests the oracle
    files under the same id are taken to carry an initialized handle as
    well.) *)
Theorem C5_placeholder_hash_blocks_finalization
        (s : State) (ctx : MsgCtx) (id : uint256) (ev : EncryptedPair) (oid : uint256)
        (ev' : EncryptedPair) (s' : State) (log : list Effect)
        (txs : list (MsgCtx * Call)) :
  (forall h, h <> 0 -> keccak256_encode [h] this <> keccak256_encode [0] this) ->
  aggregateAndRequestDecryption this ctx id ev oid s = Ok (ev', s', log) ->
  toBytes32 (resultToDecrypt ev') <> 0 ->
  forallb (keeps_handle_nonzero oid) txs = true ->
  log = [RequestDecryption [toBytes32 (resultToDecrypt ev')] oid;
         Emit (DecryptionRequested oid id)]
  /\ decryptionContexts s' oid
     = {| batchId := id;
          stateHash := _hashCiphertexts this [toBytes32 (resultToDecrypt ev')];
          processed := false |}
  /\ (forall ctx' cleartexts proof,
         exec this (run this s' txs) (ctx', Call_myCallback oid cleartexts proof)
         = (run this s' txs, Reverted StateMismatch))
  /\ processed (decryptionContexts (run this s' txs) oid) = false
  /\ finalizations this oid s' txs = 0%nat
  /\ forallb (fun r => negb (completes oid r)) (receipts this s' txs) = true.
Proof.
  intros Hinj Hagg Hnz Hkeep.
  rewrite aggregateAndRequestDecryption_eq in Hagg.
  repeat (match type of Hagg with
          | (if ?b then _ else _) = _ => destruct b; try discriminate
          end).
  injection Hagg as <- <- <-.
  set (s' := set_decryptionContexts _ _).
  assert (Hctx : decryptionContexts s' oid
                 = {| batchId := id;
                      stateHash := _hashCiphertexts this
                                     [toBytes32 (resultToDecrypt (_initIfNeeded ev))];
                      processed := false |})
    by (subst s'; cbn [decryptionContexts set_decryptionContexts]; apply upd_same).
  destruct (mismatch_stable this oid txs Hinj s' Hkeep) as (Hp & Hh & Hfin & Hcomp).
  { rewrite Hctx. reflexivity. }
  { rewrite Hctx. cbn [stateHash]. unfold _hashCiphertexts, ctsToVerify. now apply Hinj. }
  repeat split; auto.
  intros ctx' cleartexts proof.
  rewrite callback_exec, myCallback_eq, Hp.
  assert (E : (_hashCiphertexts this ctsToVerify
               =? stateHash (decryptionContexts (run this s' txs) oid)) = false)
    by (apply Z.eqb_neq; congruence).
  rewrite E. reflexivity.
Qed.

(** With a lawful library every request carries an initialized handle. *)
Lemma lawful_keeps_handle_nonzero `{!FHE.Laws L} rid txs :
  forallb (keeps_handle_nonzero rid) txs = true.
Proof.
  apply forallb_forall. intros [ctx c] _. destruct c; try reflexivity.
  unfold keeps_handle_nonzero, resultToDecrypt, toBytes32. cbn [snd].
  rewrite select_initialized. apply orb_true_r.
Qed.

End Callback.

(** ** Pause, configuration, caller independence *)

Section Gates.

Context {K : Keccak} {L : FHE.Lib}.
Variable this : address.

Lemma abi_decode_error data e :
  abi_decode_uint32 data = Revert e -> e = Revert_AbiDecode.
Proof.
  unfold abi_decode_uint32. repeat case_if; congruence.
Qed.

(** C2, as the code has it.  While the contract is paused, [openBatch]
    and [closeBatch] revert for every caller, with [PausedState] for the
    owner (the owner check comes first), and [submitEncryptedData] and
    [aggregateAndRequestDecryption] revert for every caller, with
    [PausedState] for a provider.  [myCallback] has no pause gate: it never
    reverts with [PausedState] and does under pause what it does without.
    [setPaused(false)] by the owner changes the pause flag and nothing
    else. *)
Theorem C2_pause_gates_batches_and_submissions (s : State) :
  paused s = true ->
  (forall ctx,
      openBatch ctx s
      = Revert (if msg_sender ctx =? owner s then PausedState else NotOwner))
  /\ (forall ctx id,
         closeBatch ctx id s
         = Revert (if msg_sender ctx =? owner s then PausedState else NotOwner))
  /\ (forall ctx id d,
         submitEncryptedData ctx id d s
         = Revert (if isProvider s (msg_sender ctx) then PausedState else NotProvider))
  /\ (forall ctx id ev oid,
         aggregateAndRequestDecryption this ctx id ev oid s
         = Revert (if isProvider s (msg_sender ctx) then PausedState else NotProvider))
  /\ (forall ctx rid cleartexts proof,
         myCallback this ctx rid cleartexts proof s <> Revert PausedState
         /\ myCallback this ctx rid cleartexts proof s
            = match myCallback this ctx rid cleartexts proof (set_paused false s) with
              | Revert e => Revert e
              | Ok (u, s', log) => Ok (u, set_paused true s', log)
              end)
  /\ (forall ctx,
         msg_sender ctx = owner s ->
         setPaused ctx false s
         = Ok (tt, set_paused false s, [Emit (Unpaused (msg_sender ctx))])
         /\ cooldownSeconds (set_paused false s) = cooldownSeconds s
         /\ lastSubmissionTime (set_paused false s) = lastSubmissionTime s
         /\ lastDecryptionRequestTime (set_paused false s) = lastDecryptionRequestTime s
         /\ currentBatchId (set_paused false s) = currentBatchId s
         /\ isBatchOpen (set_paused false s) = isBatchOpen s
         /\ decryptionContexts (set_paused false s) = decryptionContexts s)
  /\ (forall s0, paused s0 = false -> set_paused false (set_paused true s0) = s0).
Proof.
  intros Hp. repeat apply conj.
  - intros ctx. rewrite openBatch_eq, Hp. now destruct (msg_sender ctx =? owner s).
  - intros ctx id. rewrite closeBatch_eq, Hp. now destruct (msg_sender ctx =? owner s).
  - intros ctx id d. rewrite submitEncryptedData_eq, Hp.
    now destruct (isProvider s (msg_sender ctx)).
  - intros ctx id ev oid. rewrite aggregateAndRequestDecryption_eq, Hp.
    now destruct (isProvider s (msg_sender ctx)).
  - intros ctx rid cleartexts proof. rewrite !myCallback_eq.
    cbn [decryptionContexts set_paused]. split.
    + repeat (case_if; cbn); try discriminate.
      apply abi_decode_error in Heqr. subst. discriminate.
    + repeat (case_if; cbn); try reflexivity.
      destruct s; cbn in *; subst; reflexivity.
  - intros ctx Ho. rewrite setPaused_eq, Ho, Z.eqb_refl. cbn. repeat split.
  - intros [] Hs0. cbn in *. subst. reflexivity.
Qed.

(** C9. Called by the owner, [setCooldownSeconds(n)] reverts with
    [InvalidCooldown] (the specification's InvalidConfig) when [n] is the
    current value; otherwise it stores [n] and emits [CooldownSecondsSet]
    with the old and the new value. *)
Theorem C9_setCooldownSeconds_rejects_noop (s : State) (ctx : MsgCtx) (n : uint256) :
  msg_sender ctx = owner s ->
  (n = cooldownSeconds s -> setCooldownSeconds ctx n s = Revert InvalidCooldown)
  /\ (n <> cooldownSeconds s ->
      setCooldownSeconds ctx n s
      = Ok (tt, set_cooldownSeconds n s, [Emit (CooldownSecondsSet (cooldownSeconds s) n)])
      /\ cooldownSeconds (set_cooldownSeconds n s) = n)
  /\ spec_error InvalidCooldown = Some Spec.InvalidConfig.
Proof.
  intros Ho. rewrite setCooldownSeconds_eq, Ho, Z.eqb_refl. cbn [negb].
  split; [|split].
  - intros ->. now rewrite Z.eqb_refl.
  - intros Hn. apply Z.eqb_neq in Hn. rewrite Hn. split; reflexivity.
  - reflexivity.
Qed.

(** C10. [myCallback] never looks at its caller: two calls that differ
    only in the caller (or in the time) have the same outcome and leave
    the same storage.  Whoever calls, the request is finalized exactly when
    the replay check, the hash check and the proof check pass and the
    cleartexts decode. *)
Theorem C10_callback_ignores_caller
        (s : State) (rid : uint256) (cleartexts proof : bytes) (ctx1 ctx2 : MsgCtx) :
  myCallback this ctx1 rid cleartexts proof s = myCallback this ctx2 rid cleartexts proof s
  /\ exec this s (ctx1, Call_myCallback rid cleartexts proof)
     = exec this s (ctx2, Call_myCallback rid cleartexts proof)
  /\ (forall result,
         processed (decryptionContexts s rid) = false ->
         _hashCiphertexts this ctsToVerify = stateHash (decryptionContexts s rid) ->
         checkSignatures rid cleartexts proof = true ->
         abi_decode_uint32 cleartexts = Ok result ->
         exec this s (ctx1, Call_myCallback rid cleartexts proof)
         = (set_decryptionContexts
              (upd (decryptionContexts s) rid
                   (set_processed true (decryptionContexts s rid))) s,
            Success [Emit (DecryptionCompleted rid (batchId (decryptionContexts s rid))
                                               result)])).
Proof.
  split; [|split].
  - rewrite !myCallback_eq. reflexivity.
  - rewrite !callback_exec, !myCallback_eq. reflexivity.
  - intros result Hp Hh Hs Hd.
    rewrite callback_exec, myCallback_eq, Hp, Hs, Hd.
    apply Z.eqb_eq in Hh. rewrite Hh. reflexivity.
Qed.

End Gates.

(** ** Batches *)

Section Batches.

Context {K : Keccak} {L : FHE.Lib}.
Variable this : address.

Lemma opened_ids_cons r rs : opened_ids (r :: rs) = opened_ids [r] ++ opened_ids rs.
Proof. destruct r; cbn; now rewrite ?app_nil_r. Qed.

Lemma count_from_length a n : length (count_from a n) = n.
Proof. revert a. induction n; intros a; cbn; auto. Qed.

(** The ids announced along a sequence of transactions continue the
    counter one by one. *)
Lemma opened_ids_consecutive txs : forall s,
  exists n,
    opened_ids (receipts this s txs) = count_from (currentBatchId s + 1) n
    /\ currentBatchId (run this s txs) = currentBatchId s + Z.of_nat n.
Proof.
  induction txs as [|tx txs IH]; intros s.
  - exists O. cbn. split; [reflexivity | lia].
  - rewrite run_cons. cbn [receipts]. rewrite opened_ids_cons.
    destruct (IH (step this s tx)) as (n & Hids & Hcur).
    destruct (exec_batches this s tx)
      as [(Hsame & _ & Hnone) | (_ & _ & Hnext & _ & Hone)].
    + exists n. rewrite Hnone, Hids, Hcur, Hsame. auto.
    + exists (S n). rewrite Hone, Hids, Hcur, Hnext. cbn [count_from app].
      split; [reflexivity | lia].
Qed.

Lemma counter_grows txs : forall s, currentBatchId s <= currentBatchId (run this s txs).
Proof.
  intros s. destruct (opened_ids_consecutive txs s) as (n & _ & ->). lia.
Qed.

(** Open batches lie between 1 and the counter. *)
Lemma open_batches_bounded txs : forall s,
  0 <= currentBatchId s ->
  (forall id, isBatchOpen s id = true -> 1 <= id <= currentBatchId s) ->
  forall id, isBatchOpen (run this s txs) id = true ->
             1 <= id <= currentBatchId (run this s txs).
Proof.
  induction txs as [|tx txs IH]; intros s H0 Hb; [exact Hb|].
  rewrite run_cons.
  destruct (exec_batches this s tx)
    as [(Hsame & Hsub & _) | (_ & _ & Hnext & Hopen & _)].
  - apply IH; [lia|]. intros id Hid. rewrite Hsame. auto.
  - apply IH; [lia|]. intros id Hid. rewrite Hopen in Hid. rewrite Hnext.
    destruct (Z.eqb_spec id (currentBatchId s + 1)); [lia|].
    specialize (Hb id Hid). lia.
Qed.

(** An id at or below the counter that is closed is closed for good. *)
Lemma closed_stays_closed txs : forall s id,
  id <= currentBatchId s ->
  isBatchOpen s id = false ->
  isBatchOpen (run this s txs) id = false.
Proof.
  induction txs as [|tx txs IH]; intros s id Hle Hc; [exact Hc|].
  rewrite run_cons.
  destruct (exec_batches this s tx)
    as [(Hsame & Hsub & _) | (_ & _ & Hnext & Hopen & _)].
  - apply IH; [lia|].
    destruct (isBatchOpen (step this s tx) id) eqn:E; [|reflexivity].
    apply Hsub in E. congruence.
  - apply IH; [lia|]. rewrite Hopen.
    destruct (Z.eqb_spec id (currentBatchId s + 1)); [lia | exact Hc].
Qed.

(** C6. From deployment on, the ids [BatchOpened] announces are 1, 2, 3,
    ... in this order, and the counter is their number.  A successful
    [openBatch] takes the counter plus one, an id that was not open.  An
    open batch has an id between 1 and the counter, so an id never
    allocated is not open; an id that has been allocated and is closed
    stays closed whatever follows.  [closeBatch] of an id that is not open
    reverts: with [BatchClosedOrInvalid] (the specification's InvalidBatch)
    once the caller is the owner and the contract is not paused. *)
Theorem C6_batch_ids_are_sequential (deployer : MsgCtx) (txs : list (MsgCtx * Call)) :
  let s0 := fst (constructor deployer) in
  let s := run this s0 txs in
  (exists n,
      opened_ids (receipts this s0 txs) = count_from 1 n
      /\ currentBatchId s = Z.of_nat n)
  /\ (forall id, isBatchOpen s id = true -> 1 <= id <= currentBatchId s)
  /\ (forall ctx s' log,
         exec this s (ctx, Call_openBatch) = (s', Success log) ->
         log = [Emit (BatchOpened (currentBatchId s + 1))]
         /\ currentBatchId s' = currentBatchId s + 1
         /\ isBatchOpen s (currentBatchId s + 1) = false
         /\ isBatchOpen s' (currentBatchId s + 1) = true)
  /\ (forall id later,
         id <= currentBatchId s ->
         isBatchOpen s id = false ->
         isBatchOpen (run this s later) id = false)
  /\ (forall ctx id,
         isBatchOpen s id = false ->
         closeBatch ctx id s
         = Revert (if negb (msg_sender ctx =? owner s) then NotOwner
                   else if paused s then PausedState
                   else BatchClosedOrInvalid)).
Proof.
  intros s0 s.
  assert (Hbound : forall id, isBatchOpen s id = true -> 1 <= id <= currentBatchId s).
  { subst s. apply open_batches_bounded; subst s0; cbn; [lia | discriminate]. }
  split; [|split; [|split; [|split]]].
  - destruct (opened_ids_consecutive txs s0) as (n & Hids & Hcur).
    exists n. split; [exact Hids | exact Hcur].
  - exact Hbound.
  - intros ctx s' log. unfold exec. cbn [fst snd dispatch]. rewrite openBatch_eq.
    repeat (case_if; cbn [fst snd]); try discriminate.
    intros [= <- <-]. cbn [currentBatchId isBatchOpen set_isBatchOpen set_currentBatchId].
    rewrite upd_same. repeat split.
    destruct (isBatchOpen s (currentBatchId s + 1)) eqn:E; [|reflexivity].
    apply Hbound in E. lia.
  - intros id later. apply closed_stays_closed.
  - intros ctx id Hc. rewrite closeBatch_eq, Hc. cbn [negb].
    repeat case_if; reflexivity.
Qed.

End Batches.

(** ** Submissions and aggregation *)

Section Intake.

Context {K : Keccak} {L : FHE.Lib}.
Variable this : address.

(** C8, as the code has it.  For a provider, with the contract not paused
    and the batch open: a submission earlier than the caller's last
    submission time plus [cooldownSeconds] reverts, with [CooldownActive]
    when that sum fits [uint256] and with an arithmetic panic when it does
    not; a submission at that time or later succeeds, emits
    [DataSubmitted] and records the time for the caller and for no one
    else.  The check reads the caller's entry only: right after a
    successful submission, a submission by the same caller to any open
    batch within the cooldown reverts with [CooldownActive]. *)
Theorem C8_submission_cooldown
        (s : State) (ctx : MsgCtx) (id : uint256) (d : bytes32) :
  isProvider s (msg_sender ctx) = true ->
  paused s = false ->
  isBatchOpen s id = true ->
  let caller := msg_sender ctx in
  let now := block_timestamp ctx in
  let ready := lastSubmissionTime s caller + cooldownSeconds s in
  let s' := set_lastSubmissionTime (upd (lastSubmissionTime s) caller now) s in
  (now < ready ->
   submitEncryptedData ctx id d s
   = Revert (if ready <=? MAX_UINT256 then CooldownActive else Panic_Overflow))
  /\ (ready <= now -> now <= MAX_UINT256 ->
      submitEncryptedData ctx id d s = Ok (tt, s', [Emit (DataSubmitted caller id d)])
      /\ lastSubmissionTime s' caller = now
      /\ (forall other, other <> caller ->
                        lastSubmissionTime s' other = lastSubmissionTime s other)
      /\ (forall id2 d2 later,
             isBatchOpen s id2 = true ->
             later < now + cooldownSeconds s ->
             now + cooldownSeconds s <= MAX_UINT256 ->
             submitEncryptedData (mkCtx caller later) id2 d2 s' = Revert CooldownActive)).
Proof.
  intros Hprov Hpause Hopen caller now ready s'. subst caller now ready s'.
  split.
  - intros Hlt. rewrite submitEncryptedData_eq, Hprov, Hpause. cbn [negb].
    case_if; [|reflexivity].
    apply Z.ltb_lt in Hlt. rewrite Hlt. reflexivity.
  - intros Hge Hmax. split; [|split; [|split]].
    + rewrite submitEncryptedData_eq, Hprov, Hpause, Hopen. cbn [negb].
      assert (E1 : (lastSubmissionTime s (msg_sender ctx) + cooldownSeconds s
                    <=? MAX_UINT256) = true) by (apply Z.leb_le; lia).
      assert (E2 : (block_timestamp ctx
                    <? lastSubmissionTime s (msg_sender ctx) + cooldownSeconds s) = false)
        by (apply Z.ltb_ge; lia).
      rewrite E1, E2. reflexivity.
    + cbn. apply upd_same.
    + intros other Hne. cbn. now apply upd_other.
    + intros id2 d2 later Hopen2 Hlater Hfit.
      rewrite submitEncryptedData_eq.
      cbn [isProvider paused lastSubmissionTime cooldownSeconds isBatchOpen
           set_lastSubmissionTime msg_sender block_timestamp].
      rewrite Hprov, Hpause, upd_same. cbn [negb].
      assert (E1 : (block_timestamp ctx + cooldownSeconds s <=? MAX_UINT256) = true)
        by (apply Z.leb_le; lia).
      assert (E2 : (later <? block_timestamp ctx + cooldownSeconds s) = true)
        by (apply Z.ltb_lt; lia).
      rewrite E1, E2. reflexivity.
Qed.

Lemma initIfNeeded_initialized `{!FHE.Laws L} (ev : EncryptedPair) :
  isInitialized (fst (_initIfNeeded ev)) = true
  /\ isInitialized (snd (_initIfNeeded ev)) = true.
Proof.
  unfold _initIfNeeded. cbn [fst snd].
  destruct (isInitialized (fst ev)) eqn:E0, (isInitialized (snd ev)) eqn:E1;
    cbn [negb]; auto using asEuint32_initialized.
Qed.

(** The plaintext of the disclosed value is the threshold decision. *)
Lemma resultToDecrypt_plain `{!FHE.Laws L} (ev : EncryptedPair) :
  plain32 (resultToDecrypt ev)
  = if 100 <=? (plain32 (fst ev) + plain32 (snd ev)) mod 2 ^ 32 then 1 else 0.
Proof.
  unfold resultToDecrypt.
  rewrite plain_select, plain_ge, plain_add.
  rewrite !plain_asEuint32 by (unfold MAX_UINT32; lia).
  reflexivity.
Qed.

(** X17. For a provider past the request cooldown, on an open batch of a
    contract that is not paused, [aggregateAndRequestDecryption] succeeds.
    It leaves an initialized slot as it is and sets an uninitialized one
    to an encrypted zero; the list it hands to the oracle has one element,
    the handle selected between an encrypted 1 and an encrypted 0 by
    comparing the encrypted sum of the two slots with the encrypted
    threshold 100, and the context it stores commits to that list.  With a
    lawful library the plaintext behind that handle is 1 when the
    plaintexts of the slots sum (on 32 bits) to at least 100 and 0
    otherwise: 1 for a sum of 105, 0 for a sum of 60. *)
Theorem request_hands_over_only_the_decision
        `{!FHE.Laws L}
        (s : State) (ctx : MsgCtx) (id : uint256) (ev : EncryptedPair) (oid : uint256) :
  isProvider s (msg_sender ctx) = true ->
  paused s = false ->
  isBatchOpen s id = true ->
  lastDecryptionRequestTime s (msg_sender ctx) + cooldownSeconds s <= block_timestamp ctx ->
  block_timestamp ctx <= MAX_UINT256 ->
  let ev' := _initIfNeeded ev in
  let decision := resultToDecrypt ev' in
  let total := plain32 (fst ev') + plain32 (snd ev') in
  (exists s',
      aggregateAndRequestDecryption this ctx id ev oid s
      = Ok (ev', s', [RequestDecryption [toBytes32 decision] oid;
                      Emit (DecryptionRequested oid id)])
      /\ decryptionContexts s' oid
         = {| batchId := id;
              stateHash := _hashCiphertexts this [toBytes32 decision];
              processed := false |})
  /\ fst ev' = (if isInitialized (fst ev) then fst ev else asEuint32 0)
  /\ snd ev' = (if isInitialized (snd ev) then snd ev else asEuint32 0)
  /\ (isInitialized (fst ev) = false -> plain32 (fst ev') = 0)
  /\ (isInitialized (snd ev) = false -> plain32 (snd ev') = 0)
  /\ decision
     = select (ge (add (fst ev') (snd ev')) (asEuint32 100)) (asEuint32 1) (asEuint32 0)
  /\ plain32 decision = (if 100 <=? total mod 2 ^ 32 then 1 else 0)
  /\ abi_decode_uint32 (abi_encode_uint32 (plain32 decision)) = Ok (plain32 decision)
  /\ (total = 105 -> plain32 decision = 1)
  /\ (total = 60 -> plain32 decision = 0).
Proof.
  intros Hprov Hpause Hopen Hcool Hmax ev' decision total.
  destruct (initIfNeeded_initialized ev) as [Hi0 Hi1]. fold ev' in Hi0, Hi1.
  assert (Hplain : plain32 decision = (if 100 <=? total mod 2 ^ 32 then 1 else 0))
    by apply resultToDecrypt_plain.
  split; [|split; [|split; [|split; [|split; [|split; [|split; [|split; [|split]]]]]]]].
  - eexists. rewrite aggregateAndRequestDecryption_eq, Hprov, Hpause, Hopen.
    fold ev' decision. rewrite Hi0, Hi1. cbn [negb orb].
    assert (E1 : (lastDecryptionRequestTime s (msg_sender ctx) + cooldownSeconds s
                  <=? MAX_UINT256) = true) by (apply Z.leb_le; lia).
    assert (E2 : (block_timestamp ctx
                  <? lastDecryptionRequestTime s (msg_sender ctx) + cooldownSeconds s)
                 = false) by (apply Z.ltb_ge; lia).
    rewrite E1, E2. split; [reflexivity|].
    cbn [decryptionContexts set_decryptionContexts]. apply upd_same.
  - subst ev'. unfold _initIfNeeded. cbn [fst]. now destruct (isInitialized (fst ev)).
  - subst ev'. unfold _initIfNeeded. cbn [snd]. now destruct (isInitialized (snd ev)).
  - intros E. subst ev'. unfold _initIfNeeded. cbn [fst]. rewrite E. cbn [negb].
    apply plain_asEuint32. unfold MAX_UINT32. lia.
  - intros E. subst ev'. unfold _initIfNeeded. cbn [snd]. rewrite E. cbn [negb].
    apply plain_asEuint32. unfold MAX_UINT32. lia.
  - reflexivity.
  - exact Hplain.
  - rewrite Hplain. destruct (100 <=? total mod 2 ^ 32); reflexivity.
  - intros E. rewrite Hplain, E. reflexivity.
  - intros E. rewrite Hplain, E. reflexivity.
Qed.

End Intake.

(** ** The contract on the plaintext stand-in *)

Lemma untag (x : Z) : (x mod 2 ^ 32 + Mock.tag) mod 2 ^ 32 = x mod 2 ^ 32.
Proof.
  unfold Mock.tag. replace (x mod 2 ^ 32 + 2 ^ 32) with (x mod 2 ^ 32 + 1 * 2 ^ 32) by lia.
  rewrite Z.mod_add by lia. apply Z.mod_mod. lia.
Qed.

Lemma tagged_nonzero (x : Z) : x mod 2 ^ 32 + Mock.tag <> 0.
Proof.
  unfold Mock.tag. pose proof (Z.mod_pos_bound x (2 ^ 32)). lia.
Qed.

Lemma mock_lib_lawful : FHE.Laws Mock.lib.
Proof.
  constructor;
    cbv [plain32 asEuint32 add ge select plainBool Mock.lib isInitialized].
  - intros n Hn. rewrite untag. apply Z.mod_small. unfold MAX_UINT32 in Hn. lia.
  - intros a b. apply untag.
  - intros a b. destruct (b mod 2 ^ 32 <=? a mod 2 ^ 32); reflexivity.
  - intros c a b. destruct (c =? 2); apply untag.
  - intros n. apply negb_true_iff, Z.eqb_neq, tagged_nonzero.
  - intros c a b. apply negb_true_iff, Z.eqb_neq.
    destruct (c =? 2); apply tagged_nonzero.
Qed.

Lemma mock_keccak_separates (self : address) :
  forall h, h <> 0 ->
            keccak256_encode (Keccak := Mock.keccak) [h] self
            <> keccak256_encode (Keccak := Mock.keccak) [0] self.
Proof. intros h Hh. cbn. lia. Qed.

Lemma mock_requested_reachable :
  reachable (K := Mock.keccak) (L := Mock.lib) Mock.contract_address Mock.requested.
Proof.
  exists (Mock.at_time Mock.alice 1000).
  exists [(Mock.at_time Mock.alice 1001, Call_addProvider Mock.bob);
          (Mock.at_time Mock.alice 1002, Call_openBatch);
          Mock.request_tx].
  reflexivity.
Qed.

(** C1 on the stand-in: request 7 has been finalized; delivering the
    answer again reverts with [ReplayAttempt]. *)
Lemma C1_replay_guard_witness :
  processed (decryptionContexts Mock.finalized 7) = true
  /\ exec (K := Mock.keccak) (L := Mock.lib) Mock.contract_address Mock.finalized Mock.answer_tx
     = (Mock.finalized, Reverted ReplayAttempt).
Proof.
  assert (H : processed (decryptionContexts Mock.finalized 7) = true) by reflexivity.
  split; [exact H|].
  apply (C1_replay_guard (K := Mock.keccak) (L := Mock.lib)
           Mock.contract_address Mock.finalized 7 H).
Defined.

(** C2 on the stand-in: with request 7 pending and the contract paused,
    the owner's [openBatch] reverts with [PausedState]. *)
Lemma C2_pause_gates_witness :
  paused Mock.paused_pending = true
  /\ openBatch (Mock.at_time Mock.alice 1005) Mock.paused_pending = Revert PausedState.
Proof.
  assert (H : paused Mock.paused_pending = true) by reflexivity.
  split; [exact H|].
  exact (proj1 (C2_pause_gates_batches_and_submissions (K := Mock.keccak) (L := Mock.lib)
                  Mock.contract_address Mock.paused_pending H)
               (Mock.at_time Mock.alice 1005)).
Defined.

(** C2 as stated fails: while the contract is paused, a callback for the
    pending request 7 is not stopped by the pause (it reverts with
    [StateMismatch], as it does without pause), and a callback for a
    request that stores the placeholder hash goes through and finalizes
    it. *)
Lemma C2_callback_is_not_pause_gated :
  paused Mock.paused_pending = true
  /\ snd (exec (K := Mock.keccak) (L := Mock.lib) Mock.contract_address
               Mock.paused_pending Mock.answer_tx)
     = Reverted StateMismatch
  /\ paused (set_paused true Mock.finalizable) = true
  /\ snd (exec (K := Mock.keccak) (L := Mock.lib) Mock.contract_address
               (set_paused true Mock.finalizable) Mock.answer_tx)
     = Success [Emit (DecryptionCompleted 7 1 1)]
  /\ processed (decryptionContexts
                  (step (K := Mock.keccak) (L := Mock.lib) Mock.contract_address
                        (set_paused true Mock.finalizable) Mock.answer_tx) 7)
     = true.
Proof.
  split; [|split; [|split; [|split]]]; vm_compute; reflexivity.
Qed.

(** C3 on the stand-in: the answer to the pending request 7 reverts with
    [StateMismatch], and the request stays unprocessed. *)
Lemma C3_callback_checks_witness :
  reachable (K := Mock.keccak) (L := Mock.lib) Mock.contract_address Mock.requested
  /\ exec (K := Mock.keccak) (L := Mock.lib) Mock.contract_address
          Mock.requested Mock.answer_tx
     = (Mock.requested, Reverted StateMismatch)
  /\ processed (decryptionContexts Mock.requested 7) = false.
Proof.
  split; [exact mock_requested_reachable|].
  refine (proj1 (C3_callback_checks_before_finalizing
                   (K := Mock.keccak) (L := Mock.lib) Mock.contract_address
                   Mock.requested 7 (Mock.at_time Mock.carol 1010)
                   (abi_encode_uint32 1) Mock.some_proof mock_requested_reachable) _).
  vm_compute. discriminate.
Defined.

(** C4 on the stand-in: no call has registered request 8; a callback for
    it reverts with [StateMismatch]. *)
Lemma C4_unregistered_request_witness :
  snd (exec (K := Mock.keccak) (L := Mock.lib) Mock.contract_address Mock.requested
            (Mock.at_time Mock.carol 1010,
             Call_myCallback 8 (abi_encode_uint32 1) Mock.some_proof))
  = Reverted StateMismatch.
Proof.
  assert (Hnz : keccak256_encode (Keccak := Mock.keccak) [0] Mock.contract_address <> 0)
    by (vm_compute; discriminate).
  pose proof (C4_unregistered_request_is_a_mismatch
                (K := Mock.keccak) (L := Mock.lib) Mock.contract_address
                (Mock.at_time Mock.alice 1000)
                [(Mock.at_time Mock.alice 1001, Call_addProvider Mock.bob);
                 (Mock.at_time Mock.alice 1002, Call_openBatch);
                 Mock.request_tx]
                8 Hnz eq_refl) as (_ & H & _).
  exact (f_equal snd (H (Mock.at_time Mock.carol 1010) (abi_encode_uint32 1) Mock.some_proof)).
Defined.

(** C4 as stated fails: a callback for the never registered request 8
    reverts with [StateMismatch], which the specification does not call
    UnknownRequest. *)
Lemma C4_no_unknown_request_error :
  decryptionContexts Mock.requested 8 = zero_context
  /\ snd (exec (K := Mock.keccak) (L := Mock.lib) Mock.contract_address Mock.requested
               (Mock.at_time Mock.carol 1010,
                Call_myCallback 8 (abi_encode_uint32 1) Mock.some_proof))
     = Reverted StateMismatch
  /\ spec_error StateMismatch <> Some Spec.UnknownRequest.
Proof.
  split; [|split]; [vm_compute; reflexivity | vm_compute; reflexivity | discriminate].
Qed.

(** C5 on the stand-in: bob's request over encrypted(10) and encrypted(95)
    gets the id 7; the oracle's answer then reverts with [StateMismatch],
    also when delivered twice. *)
Lemma C5_placeholder_hash_witness :
  snd (exec (K := Mock.keccak) (L := Mock.lib) Mock.contract_address
            (run (K := Mock.keccak) (L := Mock.lib) Mock.contract_address
                 Mock.requested [Mock.answer_tx])
            Mock.answer_tx)
  = Reverted StateMismatch.
Proof.
  assert (Hagg : aggregateAndRequestDecryption
                   (K := Mock.keccak) (L := Mock.lib) Mock.contract_address
                   (Mock.at_time Mock.bob 1003) 1
                   (Mock.encrypted 10, Mock.encrypted 95) 7 Mock.ready
                 = Ok (_initIfNeeded (L := Mock.lib) (Mock.encrypted 10, Mock.encrypted 95),
                       Mock.requested,
                       [RequestDecryption [4294967297] 7; Emit (DecryptionRequested 7 1)]))
    by (vm_compute; reflexivity).
  assert (Hnz : toBytes32 (resultToDecrypt (L := Mock.lib)
                             (_initIfNeeded (L := Mock.lib)
                                (Mock.encrypted 10, Mock.encrypted 95))) <> 0)
    by (vm_compute; discriminate).
  pose proof (C5_placeholder_hash_blocks_finalization
                (K := Mock.keccak) (L := Mock.lib) Mock.contract_address
                Mock.ready (Mock.at_time Mock.bob 1003) 1
                (Mock.encrypted 10, Mock.encrypted 95) 7 _ _ _ [Mock.answer_tx]
                (mock_keccak_separates Mock.contract_address) Hagg Hnz eq_refl)
    as (_ & _ & H & _).
  exact (f_equal snd (H (Mock.at_time Mock.carol 1010) (abi_encode_uint32 1) Mock.some_proof)).
Defined.

(** X17 on the stand-in: over encrypted(10) and encrypted(95) the
    plaintext behind the handle handed over is 1; over encrypted(10) and
    encrypted(50) it is 0. *)
Lemma request_hands_over_only_the_decision_witness :
  plain32 (Lib := Mock.lib)
          (resultToDecrypt (L := Mock.lib)
             (_initIfNeeded (L := Mock.lib) (Mock.encrypted 10, Mock.encrypted 95))) = 1
  /\ plain32 (Lib := Mock.lib)
             (resultToDecrypt (L := Mock.lib)
                (_initIfNeeded (L := Mock.lib) (Mock.encrypted 10, Mock.encrypted 50))) = 0.
Proof.
  assert (Hprov : isProvider Mock.ready (msg_sender (Mock.at_time Mock.bob 1003)) = true)
    by reflexivity.
  assert (Hpause : paused Mock.ready = false) by reflexivity.
  assert (Hopen : isBatchOpen Mock.ready 1 = true) by reflexivity.
  assert (Hcool : lastDecryptionRequestTime Mock.ready (msg_sender (Mock.at_time Mock.bob 1003))
                  + cooldownSeconds Mock.ready
                  <= block_timestamp (Mock.at_time Mock.bob 1003))
    by (vm_compute; discriminate).
  assert (Hmax : block_timestamp (Mock.at_time Mock.bob 1003) <= MAX_UINT256)
    by (vm_compute; discriminate).
  split.
  - apply (request_hands_over_only_the_decision
             (K := Mock.keccak) (L := Mock.lib) (H := mock_lib_lawful)
             Mock.contract_address Mock.ready (Mock.at_time Mock.bob 1003) 1
             (Mock.encrypted 10, Mock.encrypted 95) 7 Hprov Hpause Hopen Hcool Hmax).
    reflexivity.
  - apply (request_hands_over_only_the_decision
             (K := Mock.keccak) (L := Mock.lib) (H := mock_lib_lawful)
             Mock.contract_address Mock.ready (Mock.at_time Mock.bob 1003) 1
             (Mock.encrypted 10, Mock.encrypted 50) 7 Hprov Hpause Hopen Hcool Hmax).
    reflexivity.
Defined.

(** C8 on the stand-in: bob submitted at 1003 and the cooldown is one
    minute; his submission at 1010 reverts with [CooldownActive]. *)
Lemma C8_submission_cooldown_witness :
  submitEncryptedData (Mock.at_time Mock.bob 1010) 1 (Mock.encrypted 95) Mock.cooling
  = Revert CooldownActive.
Proof.
  assert (Hprov : isProvider Mock.cooling (msg_sender (Mock.at_time Mock.bob 1010)) = true)
    by reflexivity.
  assert (Hpause : paused Mock.cooling = false) by reflexivity.
  assert (Hopen : isBatchOpen Mock.cooling 1 = true) by reflexivity.
  refine (proj1 (C8_submission_cooldown
                   Mock.cooling (Mock.at_time Mock.bob 1010) 1 (Mock.encrypted 95)
                   Hprov Hpause Hopen) _).
  vm_compute. reflexivity.
Defined.

(** C8 as stated fails: bob, a provider, submitted at 1003 to the open
    batch 1 of a contract that is not paused; the cooldown is now the
    largest [uint256]; his submission two seconds later reverts with an
    arithmetic panic, not with [CooldownActive]. *)
Lemma C8_overflowing_cooldown_panics :
  isProvider Mock.long_cooldown Mock.bob = true
  /\ paused Mock.long_cooldown = false
  /\ isBatchOpen Mock.long_cooldown 1 = true
  /\ lastSubmissionTime Mock.long_cooldown Mock.bob = 1003
  /\ cooldownSeconds Mock.long_cooldown = MAX_UINT256
  /\ 1005 - 1003 < cooldownSeconds Mock.long_cooldown
  /\ snd (exec (K := Mock.keccak) (L := Mock.lib) Mock.contract_address Mock.long_cooldown
               (Mock.at_time Mock.bob 1005,
                Call_submitEncryptedData 1 (Mock.encrypted 95)))
     = Reverted Panic_Overflow.
Proof.
  repeat (split; [vm_compute; reflexivity|]). vm_compute. reflexivity.
Qed.

(** C9 on the stand-in: the cooldown is 0, and the owner setting it to 0
    again is rejected. *)
Lemma C9_setCooldownSeconds_witness :
  setCooldownSeconds (Mock.at_time Mock.alice 1003) 0 Mock.ready = Revert InvalidCooldown.
Proof.
  assert (Ho : msg_sender (Mock.at_time Mock.alice 1003) = owner Mock.ready) by reflexivity.
  apply (C9_setCooldownSeconds_rejects_noop Mock.ready (Mock.at_time Mock.alice 1003) 0 Ho).
  reflexivity.
Defined.

(** * Further properties of the contract *)

Ltac by_call tx :=
  let ctx := fresh "ctx" in
  let c := fresh "c" in
  destruct tx as [ctx c]; unfold step, exec; cbn [fst snd];
  destruct c; cbn [dispatch];
  [ unfold transferOwnership | unfold addProvider | unfold removeProvider
  | rewrite setPaused_eq | rewrite setCooldownSeconds_eq | rewrite openBatch_eq
  | rewrite closeBatch_eq | rewrite submitEncryptedData_eq
  | rewrite drop_result_eq, aggregateAndRequestDecryption_eq
  | rewrite myCallback_eq ];
  unfold_monad; cbn [fst snd].

(** ** Who can change what *)

Section Authority.

Context {K : Keccak} {L : FHE.Lib}.
Variable this : address.

(** A transaction that does not come from the owner leaves the owner, the
    providers, the pause flag, the cooldown and the batches as they are. *)
Lemma exec_not_owner s tx :
  msg_sender (fst tx) <> owner s ->
  owner (step this s tx) = owner s
  /\ isProvider (step this s tx) = isProvider s
  /\ paused (step this s tx) = paused s
  /\ cooldownSeconds (step this s tx) = cooldownSeconds s
  /\ currentBatchId (step this s tx) = currentBatchId s
  /\ isBatchOpen (step this s tx) = isBatchOpen s.
Proof.
  intros Hne. apply Z.eqb_neq in Hne.
  by_call tx; cbn [fst msg_sender] in Hne; rewrite ?Hne; cbn [negb fst snd];
    repeat (case_if; cbn [fst snd]); auto 10.
Qed.


Lemma owner_only_reverts s ctx c :
  owner_only c = true ->
  msg_sender ctx <> owner s ->
  exec this s (ctx, c) = (s, Reverted NotOwner).
Proof.
  intros Hc Hne. apply Z.eqb_neq in Hne.
  unfold exec. cbn [fst snd]. destruct c; try discriminate; cbn [dispatch].
  - unfold transferOwnership. unfold_monad. now rewrite Hne.
  - unfold addProvider. unfold_monad. now rewrite Hne.
  - unfold removeProvider. unfold_monad. now rewrite Hne.
  - now rewrite setPaused_eq, Hne.
  - now rewrite setCooldownSeconds_eq, Hne.
  - now rewrite openBatch_eq, Hne.
  - now rewrite closeBatch_eq, Hne.
Qed.

Lemma run_keeps_owner s txs :
  forallb (fun tx => negb (msg_sender (fst tx) =? owner s)) txs = true ->
  owner (run this s txs) = owner s.
Proof.
  revert s. induction txs as [|tx txs IH]; intros s Hall; cbn [forallb] in Hall.
  - reflexivity.
  - apply andb_true_iff in Hall as [Htx Hall].
    apply negb_true_iff, Z.eqb_neq in Htx.
    destruct (exec_not_owner s tx Htx) as (Ho & _).
    rewrite run_cons, IH; [exact Ho | now rewrite Ho].
Qed.

(** X1. Whatever transactions callers other than the owner send, in any
    number and order, the owner, the provider set, the pause flag, the
    cooldown, the batch counter and the open batches stay as they are, and
    each of their calls to an owner-only function reverts with
    [NotOwner]. *)
Theorem non_owners_cannot_reconfigure (s : State) (txs : list (MsgCtx * Call)) :
  forallb (fun tx => negb (msg_sender (fst tx) =? owner s)) txs = true ->
  (owner (run this s txs) = owner s
   /\ isProvider (run this s txs) = isProvider s
   /\ paused (run this s txs) = paused s
   /\ cooldownSeconds (run this s txs) = cooldownSeconds s
   /\ currentBatchId (run this s txs) = currentBatchId s
   /\ isBatchOpen (run this s txs) = isBatchOpen s)
  /\ Forall (fun p => owner_only (snd (fst p)) = true -> snd p = Reverted NotOwner)
            (combine txs (receipts this s txs)).
Proof.
  revert s. induction txs as [|tx txs IH]; intros s Hall; cbn [forallb] in Hall.
  - cbn. auto 10.
  - apply andb_true_iff in Hall as [Htx Hall].
    apply negb_true_iff, Z.eqb_neq in Htx.
    destruct (exec_not_owner s tx Htx) as (Ho & Hp & Hpa & Hc & Hb & Hi).
    rewrite run_cons. cbn [receipts combine].
    destruct (IH (step this s tx)) as [(Ho' & Hp' & Hpa' & Hc' & Hb' & Hi') Hrec].
    { rewrite Ho. exact Hall. }
    split.
    + repeat split; congruence.
    + constructor; [|exact Hrec]. cbn [fst snd]. intros Hc0.
      destruct tx as [ctx c]. cbn [fst snd] in *.
      now rewrite (owner_only_reverts s ctx c Hc0 Htx).
Qed.

(** X2. [transferOwnership] has no guard on the new owner: the owner can
    hand the contract to the zero address.  From then on, as long as no
    transaction comes from the zero address, the owner stays zero and every
    owner-only function reverts with [NotOwner] for every caller. *)
Theorem ownership_given_to_zero_is_lost
        (s : State) (ctx : MsgCtx) (txs : list (MsgCtx * Call)) :
  msg_sender ctx = owner s ->
  forallb (fun tx => negb (msg_sender (fst tx) =? 0)) txs = true ->
  exec this s (ctx, Call_transferOwnership 0)
  = (set_owner 0 s, Success [Emit (OwnershipTransferred (owner s) 0)])
  /\ owner (run this (set_owner 0 s) txs) = 0
  /\ forall ctx' c,
      msg_sender ctx' <> 0 -> owner_only c = true ->
      exec this (run this (set_owner 0 s) txs) (ctx', c)
      = (run this (set_owner 0 s) txs, Reverted NotOwner).
Proof.
  intros Ho Hall.
  pose proof (run_keeps_owner (set_owner 0 s) txs Hall) as Hown.
  cbn [owner set_owner] in Hown.
  split; [|split].
  - unfold exec. cbn [fst snd dispatch]. unfold transferOwnership. unfold_monad.
    rewrite Ho, Z.eqb_refl. reflexivity.
  - exact Hown.
  - intros ctx' c Hne Hc. apply owner_only_reverts; [exact Hc | now rewrite Hown].
Qed.

(** X3. Provider membership is a plain set update by the owner:
    [addProvider] makes the address a provider and [removeProvider] makes
    it none, whether or not it was one before (neither call reverts for
    the owner), no other address is affected, and the last call for an
    address decides.  A removed provider's submissions and requests revert
    with [NotProvider]. *)
Theorem provider_set_updates (s : State) (ctx : MsgCtx) (p : address) :
  msg_sender ctx = owner s ->
  let add := (ctx, Call_addProvider p) in
  let remove := (ctx, Call_removeProvider p) in
  snd (exec this s add) = Success [Emit (ProviderAdded p)]
  /\ snd (exec this s remove) = Success [Emit (ProviderRemoved p)]
  /\ isProvider (run this s [add]) p = true
  /\ isProvider (run this s [remove]) p = false
  /\ (forall q, q <> p ->
                isProvider (run this s [add]) q = isProvider s q
                /\ isProvider (run this s [remove]) q = isProvider s q)
  /\ (forall q, isProvider (run this s [add; add]) q = isProvider (run this s [add]) q
                /\ isProvider (run this s [remove; add]) q = isProvider (run this s [add]) q
                /\ isProvider (run this s [add; remove]) q
                   = isProvider (run this s [remove]) q)
  /\ (forall ctx' id d ev oid,
         msg_sender ctx' = p ->
         submitEncryptedData ctx' id d (run this s [remove]) = Revert NotProvider
         /\ aggregateAndRequestDecryption this ctx' id ev oid (run this s [remove])
            = Revert NotProvider).
Proof.
  intros Ho add remove.
  assert (Hadd : exec this s add
                 = (set_isProvider (upd (isProvider s) p true) s,
                    Success [Emit (ProviderAdded p)])).
  { unfold exec, add. cbn [fst snd dispatch]. unfold addProvider. unfold_monad.
    rewrite Ho, Z.eqb_refl. reflexivity. }
  assert (Hrem : exec this s remove
                 = (set_isProvider (upd (isProvider s) p false) s,
                    Success [Emit (ProviderRemoved p)])).
  { unfold exec, remove. cbn [fst snd dispatch]. unfold removeProvider. unfold_monad.
    rewrite Ho, Z.eqb_refl. reflexivity. }
  assert (Hadd2 : forall s1, owner s1 = owner s ->
                    step this s1 add = set_isProvider (upd (isProvider s1) p true) s1).
  { intros s1 H1. unfold step, exec, add. cbn [fst snd dispatch]. unfold addProvider.
    unfold_monad. rewrite Ho, H1, Z.eqb_refl. reflexivity. }
  assert (Hrem2 : forall s1, owner s1 = owner s ->
                    step this s1 remove = set_isProvider (upd (isProvider s1) p false) s1).
  { intros s1 H1. unfold step, exec, remove. cbn [fst snd dispatch]. unfold removeProvider.
    unfold_monad. rewrite Ho, H1, Z.eqb_refl. reflexivity. }
  unfold run. cbn [fold_left].
  rewrite (Hadd2 s), (Hrem2 s) by reflexivity.
  rewrite !Hadd2, !Hrem2 by reflexivity.
  rewrite Hadd, Hrem. cbn [snd isProvider set_isProvider].
  split; [reflexivity|]. split; [reflexivity|].
  split; [apply upd_same|]. split; [apply upd_same|].
  split; [|split].
  - intros q Hq. rewrite !upd_other by assumption. split; reflexivity.
  - intros q. cbn [isProvider set_isProvider]. unfold upd.
    destruct (q =? p); repeat split.
  - intros ctx' id d ev oid Hp.
    rewrite submitEncryptedData_eq, aggregateAndRequestDecryption_eq.
    cbn [isProvider set_isProvider]. rewrite Hp, upd_same. auto.
Qed.

End Authority.

(** ** Cooldowns *)

Section Cooldowns.

Context {K : Keccak} {L : FHE.Lib}.
Variable this : address.

(** Only a caller's own transactions move its two timestamps. *)
Lemma exec_other_caller s tx a :
  msg_sender (fst tx) <> a ->
  lastSubmissionTime (step this s tx) a = lastSubmissionTime s a
  /\ lastDecryptionRequestTime (step this s tx) a = lastDecryptionRequestTime s a.
Proof.
  intros Hne.
  by_call tx; cbn [fst msg_sender] in Hne;
    repeat (case_if; cbn [fst snd lastSubmissionTime lastDecryptionRequestTime
                              set_lastSubmissionTime set_lastDecryptionRequestTime
                              set_decryptionContexts]);
    auto; rewrite ?upd_other by congruence; auto.
Qed.

Lemma run_other_caller s txs a :
  forallb (fun tx => negb (msg_sender (fst tx) =? a)) txs = true ->
  lastSubmissionTime (run this s txs) a = lastSubmissionTime s a
  /\ lastDecryptionRequestTime (run this s txs) a = lastDecryptionRequestTime s a.
Proof.
  revert s. induction txs as [|tx txs IH]; intros s Hall; cbn [forallb] in Hall.
  - auto.
  - apply andb_true_iff in Hall as [Htx Hall].
    apply negb_true_iff, Z.eqb_neq in Htx.
    rewrite run_cons.
    destruct (exec_other_caller s tx a Htx) as [H1 H2].
    destruct (IH (step this s tx) Hall) as [H3 H4].
    split; congruence.
Qed.

(** X4. The cooldown timestamps are per caller: whatever other callers
    do, the owner included, an address's [lastSubmissionTime] and
    [lastDecryptionRequestTime] change only through its own
    transactions. *)
Theorem timestamps_are_per_caller (s : State) (txs : list (MsgCtx * Call)) (a : address) :
  forallb (fun tx => negb (msg_sender (fst tx) =? a)) txs = true ->
  lastSubmissionTime (run this s txs) a = lastSubmissionTime s a
  /\ lastDecryptionRequestTime (run this s txs) a = lastDecryptionRequestTime s a.
Proof. apply run_other_caller. Qed.

(** X5. The rate limit survives interleaving: between a caller's
    successful submission at time [t1] and its next transaction, whatever
    the others do (submit, open and close batches, change the cooldown),
    the caller's next submission can only succeed at a time at least the
    cooldown then in force after [t1]. *)
Theorem submissions_are_spaced
        (s s1 s2 : State) (ctx1 ctx2 : MsgCtx) (id1 id2 : uint256) (d1 d2 : bytes32)
        (log1 log2 : list Effect) (txs : list (MsgCtx * Call)) :
  submitEncryptedData ctx1 id1 d1 s = Ok (tt, s1, log1) ->
  forallb (fun tx => negb (msg_sender (fst tx) =? msg_sender ctx1)) txs = true ->
  msg_sender ctx2 = msg_sender ctx1 ->
  submitEncryptedData ctx2 id2 d2 (run this s1 txs) = Ok (tt, s2, log2) ->
  block_timestamp ctx1 + cooldownSeconds (run this s1 txs) <= block_timestamp ctx2
  /\ lastSubmissionTime s2 (msg_sender ctx1) = block_timestamp ctx2.
Proof.
  intros H1 Hall Hsame H2.
  destruct (run_other_caller s1 txs (msg_sender ctx1) Hall) as [Hlast _].
  assert (Ht1 : lastSubmissionTime s1 (msg_sender ctx1) = block_timestamp ctx1).
  { rewrite submitEncryptedData_eq in H1.
    repeat (match type of H1 with
            | (if ?b then _ else _) = _ => destruct b; try discriminate
            end).
    injection H1 as <- _. cbn. apply upd_same. }
  rewrite submitEncryptedData_eq, Hsame, Hlast, Ht1 in H2.
  repeat (match type of H2 with
          | (if ?b then _ else _) = _ => destruct b eqn:?; try discriminate
          end).
  injection H2 as <- _. split.
  - apply Z.ltb_ge. assumption.
  - cbn. rewrite <- Hsame. apply upd_same.
Qed.

(** X6. The two cooldowns do not interfere, and a submission stores
    nothing but its time: after a successful [submitEncryptedData],
    [aggregateAndRequestDecryption] does for every caller and every
    argument what it would have done before (only the submission time
    differs in the resulting storage), and the other way round. *)
Theorem submission_and_request_are_independent
        (s : State) (ctx : MsgCtx) (id : uint256) (d : bytes32) (ev : EncryptedPair)
        (oid : uint256) :
  (forall s' log,
      submitEncryptedData ctx id d s = Ok (tt, s', log) ->
      forall ctx2 id2 ev2 oid2,
        aggregateAndRequestDecryption this ctx2 id2 ev2 oid2 s'
        = match aggregateAndRequestDecryption this ctx2 id2 ev2 oid2 s with
          | Revert e => Revert e
          | Ok (ev', s2, log2) =>
              Ok (ev', set_lastSubmissionTime (lastSubmissionTime s') s2, log2)
          end)
  /\ (forall ev' s' log,
         aggregateAndRequestDecryption this ctx id ev oid s = Ok (ev', s', log) ->
         forall ctx2 id2 d2,
           submitEncryptedData ctx2 id2 d2 s'
           = match submitEncryptedData ctx2 id2 d2 s with
             | Revert e => Revert e
             | Ok (u, s2, log2) =>
                 Ok (u,
                     set_decryptionContexts (decryptionContexts s')
                       (set_lastDecryptionRequestTime (lastDecryptionRequestTime s') s2),
                     log2)
             end).
Proof.
  split.
  - intros s' log H ctx2 id2 ev2 oid2.
    rewrite submitEncryptedData_eq in H.
    repeat (match type of H with
            | (if ?b then _ else _) = _ => destruct b; try discriminate
            end).
    injection H as <- _.
    rewrite !aggregateAndRequestDecryption_eq.
    cbn [isProvider paused lastDecryptionRequestTime cooldownSeconds isBatchOpen
         set_lastSubmissionTime].
    repeat (case_if; try reflexivity).
  - intros ev' s' log H ctx2 id2 d2.
    rewrite aggregateAndRequestDecryption_eq in H.
    repeat (match type of H with
            | (if ?b then _ else _) = _ => destruct b; try discriminate
            end).
    injection H as _ <- _.
    rewrite !submitEncryptedData_eq.
    cbn [isProvider paused lastSubmissionTime cooldownSeconds isBatchOpen
         set_lastDecryptionRequestTime set_decryptionContexts].
    repeat (case_if; try reflexivity).
Qed.

(** X7. The request cooldown: for a provider, with the contract not
    paused and the batch open, [aggregateAndRequestDecryption] earlier than
    the caller's last request time plus [cooldownSeconds] reverts, with
    [CooldownActive] when the sum fits [uint256] and an arithmetic panic
    otherwise.  A successful request records the time for the caller, and
    until the cooldown has passed every further request of the caller, for
    any open batch and any slots, reverts with [CooldownActive]; the
    caller's submissions are not held back by it. *)
Theorem request_cooldown
        (s : State) (ctx : MsgCtx) (id : uint256) (ev : EncryptedPair) (oid : uint256) :
  isProvider s (msg_sender ctx) = true ->
  paused s = false ->
  let caller := msg_sender ctx in
  let now := block_timestamp ctx in
  let ready := lastDecryptionRequestTime s caller + cooldownSeconds s in
  (now < ready ->
   aggregateAndRequestDecryption this ctx id ev oid s
   = Revert (if ready <=? MAX_UINT256 then CooldownActive else Panic_Overflow))
  /\ (forall ev' s' log,
         aggregateAndRequestDecryption this ctx id ev oid s = Ok (ev', s', log) ->
         ready <= now
         /\ lastDecryptionRequestTime s' caller = now
         /\ lastSubmissionTime s' caller = lastSubmissionTime s caller
         /\ (forall id2 ev2 oid2 later,
                later < now + cooldownSeconds s ->
                now + cooldownSeconds s <= MAX_UINT256 ->
                aggregateAndRequestDecryption this (mkCtx caller later) id2 ev2 oid2 s'
                = Revert CooldownActive)).
Proof.
  intros Hprov Hpause caller now ready. subst caller now ready.
  split.
  - intros Hlt. rewrite aggregateAndRequestDecryption_eq, Hprov, Hpause. cbn [negb].
    case_if; [|reflexivity].
    apply Z.ltb_lt in Hlt. rewrite Hlt. reflexivity.
  - intros ev' s' log H.
    rewrite aggregateAndRequestDecryption_eq, Hprov, Hpause in H. cbn [negb] in H.
    repeat (match type of H with
            | (if ?b then _ else _) = _ => destruct b eqn:?; try discriminate
            end).
    injection H as _ <- _.
    split; [apply Z.ltb_ge; assumption|].
    split; [cbn; apply upd_same|]. split; [reflexivity|].
    intros id2 ev2 oid2 later Hlater Hfit.
    rewrite aggregateAndRequestDecryption_eq.
    cbn [isProvider paused lastDecryptionRequestTime cooldownSeconds isBatchOpen
         set_lastDecryptionRequestTime set_decryptionContexts msg_sender block_timestamp].
    rewrite Hprov, Hpause, upd_same. cbn [negb].
    assert (E1 : (block_timestamp ctx + cooldownSeconds s <=? MAX_UINT256) = true)
      by (apply Z.leb_le; lia).
    assert (E2 : (later <? block_timestamp ctx + cooldownSeconds s) = true)
      by (apply Z.ltb_lt; lia).
    rewrite E1, E2. reflexivity.
Qed.

End Cooldowns.

(** ** Batches and what they accept *)

Section BatchUse.

Context {K : Keccak} {L : FHE.Lib}.
Variable this : address.

Lemma reachable_open_bounded s :
  reachable this s ->
  forall id, isBatchOpen s id = true -> 1 <= id <= currentBatchId s.
Proof.
  intros (deployer & txs & ->).
  apply open_batches_bounded; cbn; [lia | discriminate].
Qed.

(** X8. Closing is final for what a batch accepts: once the owner has
    closed a batch of a reachable storage, whatever transactions follow,
    the batch stays closed, and no submission, no decryption request and
    no second close for it succeeds, from any caller at any time. *)
Theorem closed_batch_accepts_nothing
        (s s' : State) (ctx : MsgCtx) (id : uint256) (log : list Effect)
        (later : list (MsgCtx * Call)) :
  reachable this s ->
  closeBatch ctx id s = Ok (tt, s', log) ->
  isBatchOpen (run this s' later) id = false
  /\ (forall ctx' d,
         succeeded (snd (exec this (run this s' later)
                              (ctx', Call_submitEncryptedData id d))) = false)
  /\ (forall ctx' ev oid,
         succeeded (snd (exec this (run this s' later)
                              (ctx', Call_aggregateAndRequestDecryption id ev oid)))
         = false)
  /\ (forall ctx',
         succeeded (snd (exec this (run this s' later) (ctx', Call_closeBatch id))) = false).
Proof.
  intros Hreach Hclose.
  rewrite closeBatch_eq in Hclose.
  repeat (match type of Hclose with
          | (if ?b then _ else _) = _ => destruct b eqn:?; try discriminate
          end).
  injection Hclose as <- _.
  apply negb_false_iff in Heqb1.
  pose proof (reachable_open_bounded s Hreach id Heqb1) as Hb.
  assert (Hc : isBatchOpen
                 (run this (set_isBatchOpen (upd (isBatchOpen s) id false) s) later) id
               = false).
  { apply closed_stays_closed; cbn; [lia | apply upd_same]. }
  split; [exact Hc|]. split; [|split].
  - intros ctx' d. unfold exec. cbn [fst snd dispatch].
    rewrite submitEncryptedData_eq, Hc. cbn [negb].
    repeat (case_if; cbn [fst snd succeeded]); reflexivity.
  - intros ctx' ev oid. unfold exec. cbn [fst snd dispatch].
    rewrite drop_result_eq, aggregateAndRequestDecryption_eq, Hc. cbn [negb].
    repeat (case_if; cbn [fst snd succeeded]); reflexivity.
  - intros ctx'. unfold exec. cbn [fst snd dispatch].
    rewrite closeBatch_eq, Hc. cbn [negb].
    repeat (case_if; cbn [fst snd succeeded]); reflexivity.
Qed.

(** X9. In a reachable storage, a submission, a decryption request or a
    close succeeds only for a batch id between 1 and the counter that is
    open: batch 0 and ids not yet allocated accept nothing. *)
Theorem only_allocated_batches_accept
        (s : State) (ctx : MsgCtx) (id : uint256) :
  reachable this s ->
  (forall d, succeeded (snd (exec this s (ctx, Call_submitEncryptedData id d))) = true ->
             isBatchOpen s id = true /\ 1 <= id <= currentBatchId s)
  /\ (forall ev oid,
         succeeded (snd (exec this s (ctx, Call_aggregateAndRequestDecryption id ev oid)))
         = true ->
         isBatchOpen s id = true /\ 1 <= id <= currentBatchId s)
  /\ (succeeded (snd (exec this s (ctx, Call_closeBatch id))) = true ->
      isBatchOpen s id = true /\ 1 <= id <= currentBatchId s)
  /\ (id < 1 \/ currentBatchId s < id -> isBatchOpen s id = false).
Proof.
  intros Hreach.
  pose proof (reachable_open_bounded s Hreach id) as Hb.
  assert (Hopen : forall b, negb (isBatchOpen s id) = false -> b = true ->
                  isBatchOpen s id = true /\ 1 <= id <= currentBatchId s).
  { intros b Hn _. apply negb_false_iff in Hn. auto. }
  split; [|split; [|split]].
  - intros d. unfold exec. cbn [fst snd dispatch]. rewrite submitEncryptedData_eq.
    repeat (case_if; cbn [fst snd succeeded]); try discriminate. eauto.
  - intros ev oid. unfold exec. cbn [fst snd dispatch].
    rewrite drop_result_eq, aggregateAndRequestDecryption_eq.
    repeat (case_if; cbn [fst snd succeeded]); try discriminate. eauto.
  - unfold exec. cbn [fst snd dispatch]. rewrite closeBatch_eq.
    repeat (case_if; cbn [fst snd succeeded]); try discriminate. eauto.
  - intros Hout.
    destruct (isBatchOpen s id) eqn:E; [|reflexivity]. specialize (Hb eq_refl). lia.
Qed.

End BatchUse.

(** ** Under pause *)

Section Frozen.

Context {K : Keccak} {L : FHE.Lib}.
Variable this : address.

Lemma exec_paused_not_owner s tx :
  paused s = true ->
  msg_sender (fst tx) <> owner s ->
  lastSubmissionTime (step this s tx) = lastSubmissionTime s
  /\ lastDecryptionRequestTime (step this s tx) = lastDecryptionRequestTime s
  /\ (forall rid,
         batchId (decryptionContexts (step this s tx) rid)
         = batchId (decryptionContexts s rid)
         /\ stateHash (decryptionContexts (step this s tx) rid)
            = stateHash (decryptionContexts s rid))
  /\ match snd tx with
     | Call_myCallback _ _ _ => True
     | _ => step this s tx = s
     end.
Proof.
  intros Hp Hne. apply Z.eqb_neq in Hne.
  by_call tx; cbn [fst msg_sender] in Hne; rewrite ?Hne, ?Hp; cbn [negb fst snd];
    repeat (case_if; cbn [fst snd]); auto 10.
  repeat split; auto.
  all: cbn [decryptionContexts set_decryptionContexts]; unfold upd;
    destruct (rid =? requestId) eqn:E; auto;
    apply Z.eqb_eq in E; subst; reflexivity.
Qed.

(** X10. While the contract is paused and the owner stays silent, the
    storage is frozen except for the [processed] flags: whatever the other
    callers send, the cooldown timestamps, the configuration and the
    batches do not change, every stored request keeps its batch and its
    hash, and a transaction that is not a callback changes nothing at
    all. *)
Theorem paused_storage_is_frozen (s : State) (txs : list (MsgCtx * Call)) :
  paused s = true ->
  forallb (fun tx => negb (msg_sender (fst tx) =? owner s)) txs = true ->
  paused (run this s txs) = true
  /\ owner (run this s txs) = owner s
  /\ isProvider (run this s txs) = isProvider s
  /\ cooldownSeconds (run this s txs) = cooldownSeconds s
  /\ currentBatchId (run this s txs) = currentBatchId s
  /\ isBatchOpen (run this s txs) = isBatchOpen s
  /\ lastSubmissionTime (run this s txs) = lastSubmissionTime s
  /\ lastDecryptionRequestTime (run this s txs) = lastDecryptionRequestTime s
  /\ (forall rid,
         batchId (decryptionContexts (run this s txs) rid)
         = batchId (decryptionContexts s rid)
         /\ stateHash (decryptionContexts (run this s txs) rid)
            = stateHash (decryptionContexts s rid))
  /\ (forallb (fun tx => negb (match snd tx with
                               | Call_myCallback _ _ _ => true
                               | _ => false
                               end)) txs = true ->
      run this s txs = s).
Proof.
  revert s. induction txs as [|tx txs IH]; intros s Hp Hall; cbn [forallb] in Hall.
  - cbn. auto 15.
  - apply andb_true_iff in Hall as [Htx Hall].
    apply negb_true_iff, Z.eqb_neq in Htx.
    rewrite run_cons.
    destruct (exec_not_owner this s tx Htx) as (Ho & Hpr & Hpa & Hc & Hb & Hi).
    destruct (exec_paused_not_owner s tx Hp Htx) as (Hl & Hd & Hctx & Hsame).
    destruct (IH (step this s tx)) as (I1 & I2 & I3 & I4 & I5 & I6 & I7 & I8 & I9 & I10).
    { congruence. }
    { rewrite Ho. exact Hall. }
    repeat apply conj; try congruence.
    + intros rid. destruct (I9 rid) as [A B]. destruct (Hctx rid) as [C D].
      split; congruence.
    + cbn [forallb]. intros Hnc. apply andb_true_iff in Hnc as [Hnc1 Hnc].
      rewrite (I10 Hnc).
      destruct tx as [ctx c]. cbn [snd fst] in *.
      destruct c; try discriminate; exact Hsame.
Qed.

End Frozen.

(** ** Requests, events and cleartexts *)

Section Requests.

Context {K : Keccak} {L : FHE.Lib}.
Variable this : address.

(** X11. A stored request is immutable but for its flag: as long as no
    new request is registered under its id, its batch and its hash never
    change, whatever transactions run, and its [processed] flag, once
    true, is never cleared. *)
Theorem stored_request_is_immutable
        (s : State) (txs : list (MsgCtx * Call)) (rid : uint256) :
  forallb (fun tx => negb (registers rid tx)) txs = true ->
  batchId (decryptionContexts (run this s txs) rid) = batchId (decryptionContexts s rid)
  /\ stateHash (decryptionContexts (run this s txs) rid)
     = stateHash (decryptionContexts s rid)
  /\ (processed (decryptionContexts s rid) = true ->
      processed (decryptionContexts (run this s txs) rid) = true).
Proof.
  revert s. induction txs as [|tx txs IH]; intros s Hreg; cbn [forallb] in Hreg.
  - auto.
  - apply andb_true_iff in Hreg as [Hreg1 Hreg].
    rewrite run_cons. destruct (IH (step this s tx) Hreg) as (Hb & Hh & Hp).
    destruct (exec_contexts this s tx rid)
      as [[Hsame _] | [(ctx & id & ev & -> & _) | (_ & _ & Hfalse & _ & Hset)]].
    + rewrite Hb, Hh, Hsame. repeat split. intros H. apply Hp. now rewrite Hsame.
    + unfold registers in Hreg1. cbn in Hreg1. rewrite Z.eqb_refl in Hreg1. discriminate.
    + rewrite Hb, Hh, Hset. repeat split. congruence.
Qed.

Lemma replay_app v log1 log2 : replay v (log1 ++ log2) = replay (replay v log1) log2.
Proof. unfold replay. apply fold_left_app. Qed.

(** One transaction keeps the view and the storage in agreement. *)
Lemma exec_agrees v s tx :
  agrees v s ->
  agrees (replay v (log_of (snd (exec this s tx)))) (step this s tx).
Proof.
  unfold agrees. intros (Ho & Hp & Hpa & Hc & Hb & Hi & Hbo & Hpr).
  by_call tx;
    repeat (case_if; cbn [fst snd log_of replay fold_left replay_effect replay_event]);
    cbn; auto 10.
  all: repeat split; auto; try congruence; intros k; unfold upd.
  all: destruct (k =? _) eqn:E; cbn; auto.
  apply Z.eqb_eq in E. subst. apply Hbo.
Qed.

(** X12. The events suffice to follow the contract: replaying, from the
    empty view, the event of the deployment and then the logs of all
    transactions in order gives the owner, the provider set, the pause
    flag, the cooldown, the batch counter, the open batches and, for every
    request id, its batch and its [processed] flag, exactly as the storage
    holds them. *)
Theorem events_determine_the_state (deployer : MsgCtx) (txs : list (MsgCtx * Call)) :
  let s0 := fst (constructor deployer) in
  agrees (replay empty_view
                 (snd (constructor deployer) ++ flat_map log_of (receipts this s0 txs)))
         (run this s0 txs).
Proof.
  intros s0. rewrite replay_app.
  assert (H0 : agrees (replay empty_view (snd (constructor deployer))) s0).
  { subst s0. unfold agrees. cbn. auto 10. }
  revert H0. generalize (replay empty_view (snd (constructor deployer))) as v.
  generalize s0 as s. clear s0.
  induction txs as [|tx txs IH]; intros s v Hag.
  - exact Hag.
  - rewrite run_cons. cbn [receipts flat_map]. rewrite replay_app.
    apply IH. now apply exec_agrees.
Qed.

End Requests.
(** ** Cleartexts *)

Lemma be_value_from acc bs :
  0 <= acc ->
  0 <= fold_left (fun a b => a * 256 + Z.of_N (Byte.to_N b)) bs acc.
Proof.
  revert acc. induction bs as [|b bs IH]; intros acc Hacc; cbn; [exact Hacc|].
  apply IH. pose proof (N2Z.is_nonneg (Byte.to_N b)). lia.
Qed.

Lemma be_value_nonneg bs : 0 <= be_value bs.
Proof. apply be_value_from. lia. Qed.

Lemma abi_decode_ok data v :
  abi_decode_uint32 data = Ok v ->
  32 <= Z.of_nat (length data) /\ v = be_value (firstn 32 data) /\ 0 <= v <= MAX_UINT32.
Proof.
  unfold abi_decode_uint32.
  destruct (Z.of_nat (length data) <? 32) eqn:E1; [discriminate|].
  destruct (be_value (firstn 32 data) <=? MAX_UINT32) eqn:E2; [|discriminate].
  intros [= <-]. apply Z.ltb_ge in E1. apply Z.leb_le in E2.
  pose proof (be_value_nonneg (firstn 32 data)). auto.
Qed.

Lemma byte_of_small n :
  0 <= n < 256 ->
  Z.of_N (Byte.to_N (match Byte.of_N (Z.to_N n) with Some b => b | None => x00 end)) = n.
Proof.
  intros Hn. destruct (Byte.of_N (Z.to_N n)) as [b|] eqn:E.
  - apply Byte.to_of_N in E. rewrite E. apply Z2N.id. lia.
  - apply Byte.of_N_None_iff in E. lia.
Qed.

(** Decoding undoes encoding, whatever follows the first word. *)
Lemma abi_decode_encode v extra :
  0 <= v <= MAX_UINT32 ->
  abi_decode_uint32 (abi_encode_uint32 v ++ extra) = Ok v.
Proof.
  intros Hv. unfold MAX_UINT32 in Hv.
  assert (Hlen : length (abi_encode_uint32 v) = 32%nat) by reflexivity.
  unfold abi_decode_uint32.
  rewrite length_app, Hlen.
  destruct (Z.of_nat (32 + length extra) <? 32) eqn:E1; [apply Z.ltb_lt in E1; lia|].
  rewrite firstn_app, Hlen, Nat.sub_diag, firstn_O, app_nil_r.
  rewrite firstn_all2 by (rewrite Hlen; apply Nat.le_refl).
  assert (Hval : be_value (abi_encode_uint32 v) = v).
  { unfold abi_encode_uint32, be_value. rewrite fold_left_app.
    change (fold_left (fun acc b => acc * 256 + Z.of_N (Byte.to_N b)) (repeat x00 28) 0)
      with 0.
    cbn [map fold_left].
    rewrite !byte_of_small by (apply Z.mod_pos_bound; lia).
    change (256 ^ 3) with 16777216. change (256 ^ 2) with 65536.
    change (256 ^ 1) with 256. change (256 ^ 0) with 1.
    Z.div_mod_to_equations. lia. }
  rewrite Hval.
  destruct (v <=? MAX_UINT32) eqn:E2; [reflexivity|].
  apply Z.leb_gt in E2. unfold MAX_UINT32 in E2. lia.
Qed.

Section Cleartexts.

Context {K : Keccak} {L : FHE.Lib}.
Variable this : address.

(** X13. What the callback accepts as cleartexts: with fewer than 32
    bytes it never succeeds, whatever the proof.  When it succeeds, the
    one result it discloses is the big-endian value of the first 32 bytes
    and fits 32 bits.  When the replay, hash and proof checks pass and the
    cleartexts start with the encoding of a 32-bit value, the callback
    succeeds and discloses exactly that value, for the batch recorded with
    the request. *)
Theorem callback_cleartexts
        (s : State) (ctx : MsgCtx) (rid : uint256) (cleartexts proof : bytes) :
  let tx := (ctx, Call_myCallback rid cleartexts proof) in
  (Z.of_nat (length cleartexts) < 32 -> succeeded (snd (exec this s tx)) = false)
  /\ (forall log,
         snd (exec this s tx) = Success log ->
         disclosed log = [be_value (firstn 32 cleartexts)]
         /\ 0 <= be_value (firstn 32 cleartexts) <= MAX_UINT32)
  /\ (forall v extra,
         0 <= v <= MAX_UINT32 ->
         cleartexts = abi_encode_uint32 v ++ extra ->
         processed (decryptionContexts s rid) = false ->
         _hashCiphertexts this ctsToVerify = stateHash (decryptionContexts s rid) ->
         checkSignatures rid cleartexts proof = true ->
         snd (exec this s tx)
         = Success [Emit (DecryptionCompleted rid (batchId (decryptionContexts s rid)) v)]).
Proof.
  intros tx. subst tx. rewrite callback_exec, myCallback_eq.
  split; [|split].
  - intros Hshort.
    assert (E : abi_decode_uint32 cleartexts = Revert Revert_AbiDecode).
    { unfold abi_decode_uint32. apply Z.ltb_lt in Hshort. now rewrite Hshort. }
    rewrite E. repeat (case_if; cbn [fst snd succeeded]); reflexivity.
  - intros log.
    repeat (case_if; cbn [fst snd]); try discriminate.
    intros [= <-]. apply abi_decode_ok in Heqr as (_ & -> & Hr).
    cbn [disclosed]. auto.
  - intros v extra Hv -> Hp Hh Hs.
    apply Z.eqb_eq in Hh.
    rewrite Hp, Hh, Hs, (abi_decode_encode v extra Hv). reflexivity.
Qed.

End Cleartexts.

(** ** Slots and the decision *)

Section Slots.

Context {K : Keccak} {L : FHE.Lib} {HL : FHE.Laws L}.
Variable this : address.

(** X14. With a lawful library, [_initIfNeeded] leaves a pair with both
    slots initialized as it is, doing it twice is doing it once, and the
    check that follows it can never fail: [aggregateAndRequestDecryption]
    never reverts with "FHE state not initialized".  A request over two
    slots never written discloses 0. *)
Theorem slots_are_filled_before_use (ev : EncryptedPair) :
  _initIfNeeded (_initIfNeeded ev) = _initIfNeeded ev
  /\ (isInitialized (fst ev) = true -> isInitialized (snd ev) = true ->
      _initIfNeeded ev = ev)
  /\ (forall s ctx id oid,
         aggregateAndRequestDecryption this ctx id ev oid s
         <> Revert Revert_FHEStateNotInitialized)
  /\ plain32 (resultToDecrypt (_initIfNeeded (0, 0))) = 0.
Proof.
  destruct (initIfNeeded_initialized ev) as [H0 H1].
  split; [|split; [|split]].
  - unfold _initIfNeeded at 1. rewrite H0, H1. cbn [negb]. now destruct (_initIfNeeded ev).
  - intros E0 E1. unfold _initIfNeeded. rewrite E0, E1. cbn [negb]. now destruct ev.
  - intros s ctx id oid. rewrite aggregateAndRequestDecryption_eq, H0, H1. cbn [negb orb].
    repeat case_if; discriminate.
  - change (_initIfNeeded (0, 0)) with (asEuint32 0, asEuint32 0).
    rewrite resultToDecrypt_plain. cbn [fst snd].
    rewrite !plain_asEuint32 by (unfold MAX_UINT32; lia).
    reflexivity.
Qed.

(** X15. The decision is taken on the 32-bit sum: with a lawful library,
    plaintexts that add up to at least 100 without passing 2^32 disclose
    1, plaintexts that add up to less than 100 disclose 0, and plaintexts
    whose sum passes 2^32 by less than 100 disclose 0 as well, the sum
    having wrapped around. *)
Theorem decision_is_taken_on_the_wrapped_sum (ev : EncryptedPair) :
  let total := plain32 (fst ev) + plain32 (snd ev) in
  (100 <= total < 2 ^ 32 -> plain32 (resultToDecrypt ev) = 1)
  /\ (0 <= total < 100 -> plain32 (resultToDecrypt ev) = 0)
  /\ (2 ^ 32 <= total < 2 ^ 32 + 100 -> plain32 (resultToDecrypt ev) = 0)
  /\ (plain32 (resultToDecrypt ev) = 0 \/ plain32 (resultToDecrypt ev) = 1).
Proof.
  intros total. rewrite resultToDecrypt_plain. fold total.
  split; [|split; [|split]].
  - intros H. rewrite Z.mod_small by lia.
    destruct (100 <=? total) eqn:E; [reflexivity | apply Z.leb_gt in E; lia].
  - intros H. rewrite Z.mod_small by lia.
    destruct (100 <=? total) eqn:E; [apply Z.leb_le in E; lia | reflexivity].
  - intros H.
    replace total with ((total - 2 ^ 32) + 1 * 2 ^ 32) by lia.
    rewrite Z.mod_add by lia. rewrite Z.mod_small by lia.
    destruct (100 <=? total - 2 ^ 32) eqn:E; [apply Z.leb_le in E; lia | reflexivity].
  - destruct (100 <=? total mod 2 ^ 32); auto.
Qed.

End Slots.

(** ** Handing over the contract *)

Section Handover.

Context {K : Keccak} {L : FHE.Lib}.
Variable this : address.

(** X16. A transfer of ownership by the owner is immediate and complete:
    it emits [OwnershipTransferred] with the old and the new owner and
    changes nothing but the owner; from then on every owner-only call of
    the previous owner (when it is not the new one) reverts with
    [NotOwner], and no owner-only call of the new owner does. *)
Theorem ownership_transfer_is_complete (s : State) (ctx : MsgCtx) (newOwner : address) :
  msg_sender ctx = owner s ->
  exec this s (ctx, Call_transferOwnership newOwner)
  = (set_owner newOwner s, Success [Emit (OwnershipTransferred (owner s) newOwner)])
  /\ (forall ctx' c,
         owner_only c = true ->
         (msg_sender ctx' = owner s -> newOwner <> owner s ->
          snd (exec this (set_owner newOwner s) (ctx', c)) = Reverted NotOwner)
         /\ (msg_sender ctx' = newOwner ->
             snd (exec this (set_owner newOwner s) (ctx', c)) <> Reverted NotOwner)).
Proof.
  intros Ho. split.
  - unfold exec. cbn [fst snd dispatch]. unfold transferOwnership. unfold_monad.
    rewrite Ho, Z.eqb_refl. reflexivity.
  - intros ctx' c Hc. split.
    + intros Hold Hne. rewrite owner_only_reverts; auto. cbn. congruence.
    + intros Hnew. unfold exec. cbn [fst snd].
      destruct c; try discriminate; cbn [dispatch];
        [ unfold transferOwnership | unfold addProvider | unfold removeProvider
        | rewrite setPaused_eq | rewrite setCooldownSeconds_eq | rewrite openBatch_eq
        | rewrite closeBatch_eq ];
        unfold_monad; cbn [owner set_owner]; rewrite Hnew, Z.eqb_refl; cbn [negb];
        repeat (case_if; cbn [fst snd]); discriminate.
Qed.

End Handover.

(** ** The further properties on the stand-in *)

Lemma mock_ready_reachable :
  reachable (K := Mock.keccak) (L := Mock.lib) Mock.contract_address Mock.ready.
Proof.
  exists (Mock.at_time Mock.alice 1000).
  exists [(Mock.at_time Mock.alice 1001, Call_addProvider Mock.bob);
          (Mock.at_time Mock.alice 1002, Call_openBatch)].
  reflexivity.
Qed.

(** X1 on the stand-in: bob and carol try to pause, open, transfer and
    close; the pause flag and the owner are as before. *)
Lemma non_owners_cannot_reconfigure_witness :
  paused (run (K := Mock.keccak) (L := Mock.lib) Mock.contract_address
              Mock.ready Demo.outsiders) = paused Mock.ready
  /\ owner (run (K := Mock.keccak) (L := Mock.lib) Mock.contract_address
                Mock.ready Demo.outsiders) = owner Mock.ready.
Proof.
  pose proof (non_owners_cannot_reconfigure
                (K := Mock.keccak) (L := Mock.lib) Mock.contract_address
                Mock.ready Demo.outsiders eq_refl) as [(Ho & _ & Hp & _) _].
  split; [exact Hp | exact Ho].
Defined.

(** X2 on the stand-in: alice gives the contract to the zero address;
    after bob's and carol's transactions the owner is still zero. *)
Lemma ownership_given_to_zero_witness :
  owner (run (K := Mock.keccak) (L := Mock.lib) Mock.contract_address
             (set_owner 0 Mock.ready) Demo.outsiders) = 0.
Proof.
  assert (Ho : msg_sender (Mock.at_time Mock.alice 1003) = owner Mock.ready) by reflexivity.
  exact (proj1 (proj2 (ownership_given_to_zero_is_lost
                         (K := Mock.keccak) (L := Mock.lib) Mock.contract_address
                         Mock.ready (Mock.at_time Mock.alice 1003) Demo.outsiders
                         Ho eq_refl))).
Defined.

(** X3 on the stand-in: alice removes bob; his submission then reverts
    with [NotProvider]. *)
Lemma provider_set_updates_witness :
  submitEncryptedData (Mock.at_time Mock.bob 1004) 1 (Mock.encrypted 10)
    (run (K := Mock.keccak) (L := Mock.lib) Mock.contract_address Mock.ready
         [(Mock.at_time Mock.alice 1003, Call_removeProvider Mock.bob)])
  = Revert NotProvider.
Proof.
  assert (Ho : msg_sender (Mock.at_time Mock.alice 1003) = owner Mock.ready) by reflexivity.
  pose proof (provider_set_updates
                (K := Mock.keccak) (L := Mock.lib) Mock.contract_address
                Mock.ready (Mock.at_time Mock.alice 1003) Mock.bob Ho)
    as (_ & _ & _ & _ & _ & _ & H).
  exact (proj1 (H (Mock.at_time Mock.bob 1004) 1 (Mock.encrypted 10)
                  (Mock.encrypted 10, Mock.encrypted 50) 7 eq_refl)).
Defined.

(** X4 on the stand-in: alice's transactions leave bob's submission time
    at 1063. *)
Lemma timestamps_are_per_caller_witness :
  lastSubmissionTime
    (run (K := Mock.keccak) (L := Mock.lib) Mock.contract_address
         Demo.second_submission Demo.meanwhile) Mock.bob
  = lastSubmissionTime Demo.second_submission Mock.bob.
Proof.
  exact (proj1 (timestamps_are_per_caller
                  (K := Mock.keccak) (L := Mock.lib) Mock.contract_address
                  Demo.second_submission Demo.meanwhile Mock.bob eq_refl)).
Defined.

(** X5 on the stand-in: bob submits at 1063 and, after alice has set the
    cooldown to 30, again at 1100. *)
Lemma submissions_are_spaced_witness :
  1063 + cooldownSeconds
           (run (K := Mock.keccak) (L := Mock.lib) Mock.contract_address
                Demo.second_submission Demo.meanwhile)
  <= 1100.
Proof.
  assert (H1 : submitEncryptedData (Mock.at_time Mock.bob 1063) 1 (Mock.encrypted 95)
                 Mock.cooling
               = Ok (tt, Demo.second_submission,
                     [Emit (DataSubmitted Mock.bob 1 (Mock.encrypted 95))]))
    by (vm_compute; reflexivity).
  assert (H2 : submitEncryptedData (Mock.at_time Mock.bob 1100) 2 (Mock.encrypted 50)
                 (run (K := Mock.keccak) (L := Mock.lib) Mock.contract_address
                      Demo.second_submission Demo.meanwhile)
               = Ok (tt, Demo.third_submission,
                     [Emit (DataSubmitted Mock.bob 2 (Mock.encrypted 50))]))
    by (vm_compute; reflexivity).
  exact (proj1 (submissions_are_spaced
                  (K := Mock.keccak) (L := Mock.lib) Mock.contract_address
                  Mock.cooling Demo.second_submission Demo.third_submission
                  (Mock.at_time Mock.bob 1063) (Mock.at_time Mock.bob 1100)
                  1 2 (Mock.encrypted 95) (Mock.encrypted 50) _ _ Demo.meanwhile
                  H1 eq_refl eq_refl H2)).
Defined.

(** X7 on the stand-in: bob's request at 1003 records that time for
    him. *)
Lemma request_cooldown_witness :
  lastDecryptionRequestTime Mock.requested Mock.bob = 1003.
Proof.
  assert (Hprov : isProvider Mock.ready (msg_sender (Mock.at_time Mock.bob 1003)) = true)
    by reflexivity.
  assert (Hpause : paused Mock.ready = false) by reflexivity.
  assert (Hagg : aggregateAndRequestDecryption
                   (K := Mock.keccak) (L := Mock.lib) Mock.contract_address
                   (Mock.at_time Mock.bob 1003) 1
                   (Mock.encrypted 10, Mock.encrypted 95) 7 Mock.ready
                 = Ok (_initIfNeeded (L := Mock.lib) (Mock.encrypted 10, Mock.encrypted 95),
                       Mock.requested,
                       [RequestDecryption [4294967297] 7; Emit (DecryptionRequested 7 1)]))
    by (vm_compute; reflexivity).
  exact (proj1 (proj2 (proj2 (request_cooldown
                                (K := Mock.keccak) (L := Mock.lib) Mock.contract_address
                                Mock.ready (Mock.at_time Mock.bob 1003) 1
                                (Mock.encrypted 10, Mock.encrypted 95) 7 Hprov Hpause)
                             _ _ _ Hagg))).
Defined.

(** X8 on the stand-in: alice closes batch 1 and opens batch 2; bob's
    submission to batch 1 does not succeed. *)
Lemma closed_batch_accepts_nothing_witness :
  succeeded
    (snd (exec (K := Mock.keccak) (L := Mock.lib) Mock.contract_address
               (run (K := Mock.keccak) (L := Mock.lib) Mock.contract_address
                    Demo.batch_closed Demo.reopening)
               (Mock.at_time Mock.bob 1010,
                Call_submitEncryptedData 1 (Mock.encrypted 10))))
  = false.
Proof.
  assert (Hc : closeBatch (Mock.at_time Mock.alice 1003) 1 Mock.ready
               = Ok (tt, Demo.batch_closed, [Emit (BatchClosed 1)]))
    by (vm_compute; reflexivity).
  exact (proj1 (proj2 (closed_batch_accepts_nothing
                         (K := Mock.keccak) (L := Mock.lib) Mock.contract_address
                         Mock.ready Demo.batch_closed (Mock.at_time Mock.alice 1003) 1
                         _ Demo.reopening mock_ready_reachable Hc))
               (Mock.at_time Mock.bob 1010) (Mock.encrypted 10)).
Defined.

(** X9 on the stand-in: one batch has been allocated; batch 0 and batch 2
    are not open. *)
Lemma only_allocated_batches_accept_witness :
  isBatchOpen Mock.ready 0 = false /\ isBatchOpen Mock.ready 2 = false.
Proof.
  split.
  - refine (proj2 (proj2 (proj2 (only_allocated_batches_accept
                                   (K := Mock.keccak) (L := Mock.lib)
                                   Mock.contract_address Mock.ready
                                   (Mock.at_time Mock.bob 1003) 0
                                   mock_ready_reachable))) _).
    left. reflexivity.
  - refine (proj2 (proj2 (proj2 (only_allocated_batches_accept
                                   (K := Mock.keccak) (L := Mock.lib)
                                   Mock.contract_address Mock.ready
                                   (Mock.at_time Mock.bob 1003) 2
                                   mock_ready_reachable))) _).
    right. reflexivity.
Defined.

(** X10 on the stand-in: with request 7 pending and the contract paused,
    bob's submission and request and carol's unpause change nothing. *)
Lemma paused_storage_is_frozen_witness :
  run (K := Mock.keccak) (L := Mock.lib) Mock.contract_address
      Mock.paused_pending Demo.under_pause
  = Mock.paused_pending.
Proof.
  assert (Hp : paused Mock.paused_pending = true) by reflexivity.
  pose proof (paused_storage_is_frozen
                (K := Mock.keccak) (L := Mock.lib) Mock.contract_address
                Mock.paused_pending Demo.under_pause Hp eq_refl)
    as (_ & _ & _ & _ & _ & _ & _ & _ & _ & H).
  exact (H eq_refl).
Defined.

(** X11 on the stand-in: request 7 keeps its batch through the pause and
    what follows. *)
Lemma stored_request_is_immutable_witness :
  batchId (decryptionContexts
             (run (K := Mock.keccak) (L := Mock.lib) Mock.contract_address
                  Mock.requested (Mock.pause_tx :: Demo.under_pause)) 7)
  = batchId (decryptionContexts Mock.requested 7).
Proof.
  exact (proj1 (stored_request_is_immutable
                  (K := Mock.keccak) (L := Mock.lib) Mock.contract_address
                  Mock.requested (Mock.pause_tx :: Demo.under_pause) 7 eq_refl)).
Defined.

(** X14 on the stand-in: initializing twice is initializing once. *)
Lemma slots_are_filled_before_use_witness :
  _initIfNeeded (L := Mock.lib) (_initIfNeeded (L := Mock.lib) (0, Mock.encrypted 95))
  = _initIfNeeded (L := Mock.lib) (0, Mock.encrypted 95).
Proof.
  exact (proj1 (slots_are_filled_before_use
                  (K := Mock.keccak) (L := Mock.lib) (HL := mock_lib_lawful)
                  Mock.contract_address (0, Mock.encrypted 95))).
Defined.

(** X15 on the stand-in: 4294967295 and 50 add up past 2^32; the
    decision is 0. *)
Lemma decision_wraps_witness :
  plain32 (Lib := Mock.lib)
          (resultToDecrypt (L := Mock.lib) (Mock.encrypted 4294967295, Mock.encrypted 50))
  = 0.
Proof.
  refine (proj1 (proj2 (proj2 (decision_is_taken_on_the_wrapped_sum
                                 (L := Mock.lib) (HL := mock_lib_lawful)
                                 (Mock.encrypted 4294967295, Mock.encrypted 50)))) _).
  vm_compute. split; [discriminate | reflexivity].
Defined.

(** X16 on the stand-in: alice hands the contract to carol; alice's
    [openBatch] then reverts with [NotOwner]. *)
Lemma ownership_transfer_witness :
  snd (exec (K := Mock.keccak) (L := Mock.lib) Mock.contract_address
            (set_owner Mock.carol Mock.ready) (Mock.at_time Mock.alice 1004, Call_openBatch))
  = Reverted NotOwner.
Proof.
  assert (Ho : msg_sender (Mock.at_time Mock.alice 1003) = owner Mock.ready) by reflexivity.
  refine (proj1 (proj2 (ownership_transfer_is_complete
                          (K := Mock.keccak) (L := Mock.lib) Mock.contract_address
                          Mock.ready (Mock.at_time Mock.alice 1003) Mock.carol Ho)
                       (Mock.at_time Mock.alice 1004) Call_openBatch eq_refl) eq_refl _).
  vm_compute. discriminate.
Defined.

(** ** What is disclosed in the end *)

Section Disclosure.

Context {K : Keccak} {L : FHE.Lib} {HL : FHE.Laws L}.
Variable this : address.

Hypothesis keccak_separates :
  forall h, h <> 0 -> keccak256_encode [h] this <> keccak256_encode [0] this.

(** With a lawful library and a hash that tells a handle from the zero
    word, a transaction keeps every stored request out of the callback's
    reach, and discloses nothing. *)
Lemma exec_all_mismatched s tx :
  all_mismatched this s ->
  all_mismatched this (step this s tx)
  /\ disclosed (log_of (snd (exec this s tx))) = [].
Proof.
  intros Hinv. split.
  - intros rid. destruct (Hinv rid) as [Hp Hh].
    destruct (exec_contexts this s tx rid)
      as [[Hsame _] | [(ctx & id & ev & -> & Hnew) | (_ & _ & _ & Heq & _)]].
    + rewrite Hsame. auto.
    + rewrite Hnew. cbn [processed stateHash]. split; [reflexivity|].
      unfold _hashCiphertexts, ctsToVerify. apply keccak_separates.
      unfold resultToDecrypt, toBytes32.
      pose proof (select_initialized
                    (ge (add (fst (_initIfNeeded ev)) (snd (_initIfNeeded ev)))
                        (asEuint32 100))
                    (asEuint32 1) (asEuint32 0)) as Hi.
      unfold isInitialized in Hi. now apply negb_true_iff, Z.eqb_neq in Hi.
    + congruence.
  - by_call tx; repeat (case_if; cbn [fst snd log_of disclosed]); try reflexivity.
    destruct (Hinv requestId) as [Hp Hh].
    apply negb_false_iff, Z.eqb_eq in Heqb0. congruence.
Qed.

Lemma run_all_mismatched txs : forall s,
  all_mismatched this s ->
  all_mismatched this (run this s txs)
  /\ disclosed (flat_map log_of (receipts this s txs)) = [].
Proof.
  induction txs as [|tx txs IH]; intros s Hinv.
  - split; [exact Hinv | reflexivity].
  - destruct (exec_all_mismatched s tx Hinv) as [Hstep Hnone].
    destruct (IH (step this s tx) Hstep) as [Hrun Hrest].
    rewrite run_cons. split; [exact Hrun|].
    cbn [receipts flat_map].
    assert (Happ : forall l1 l2, disclosed (l1 ++ l2) = disclosed l1 ++ disclosed l2).
    { clear. induction l1 as [|x l1 IHl]; intros l2; [reflexivity|].
      destruct x as [e|cts r]; [destruct e|]; cbn; rewrite ?IHl; reflexivity. }
    rewrite Happ, Hnone, Hrest. reflexivity.
Qed.

(** C7, where the code departs from it.  The request is built as the
    claim says: [aggregateAndRequestDecryption] hands the oracle one
    handle, whose plaintext is the threshold decision, 1 for slots that
    sum to 105 and 0 for slots that sum to 60.  But the decision is never
    disclosed: [myCallback] recomputes the hash over the placeholder list
    and not over the list of the request, so on a contract run from its
    deployment every callback for the request, with any cleartexts and any
    proof, reverts with [StateMismatch], the request stays unprocessed, and
    no transaction that follows emits [DecryptionCompleted]. *)
Theorem C7_the_decision_is_never_disclosed
        (deployer : MsgCtx) (before after : list (MsgCtx * Call))
        (ctx : MsgCtx) (id : uint256) (ev : EncryptedPair) (oid : uint256)
        (ev' : EncryptedPair) (s' : State) (log : list Effect) :
  keccak256_encode [0] this <> 0 ->
  aggregateAndRequestDecryption this ctx id ev oid
    (run this (fst (constructor deployer)) before)
  = Ok (ev', s', log) ->
  let decision := resultToDecrypt ev' in
  let total := plain32 (fst ev') + plain32 (snd ev') in
  log = [RequestDecryption [toBytes32 decision] oid; Emit (DecryptionRequested oid id)]
  /\ plain32 decision = (if 100 <=? total mod 2 ^ 32 then 1 else 0)
  /\ (total = 105 -> plain32 decision = 1)
  /\ (total = 60 -> plain32 decision = 0)
  /\ (forall ctx' cleartexts proof,
         exec this (run this s' after) (ctx', Call_myCallback oid cleartexts proof)
         = (run this s' after, Reverted StateMismatch))
  /\ processed (decryptionContexts (run this s' after) oid) = false
  /\ disclosed (flat_map log_of (receipts this s' after)) = [].
Proof.
  intros Hnz Hagg decision total.
  assert (H0 : all_mismatched this (fst (constructor deployer))).
  { intros rid. cbn. split; [reflexivity|].
    unfold _hashCiphertexts, ctsToVerify. congruence. }
  destruct (run_all_mismatched before _ H0) as [Hs _].
  assert (Hstep : step this (run this (fst (constructor deployer)) before)
                       (ctx, Call_aggregateAndRequestDecryption id ev oid) = s').
  { unfold step, exec. cbn [fst snd dispatch]. now rewrite drop_result_eq, Hagg. }
  destruct (exec_all_mismatched _ (ctx, Call_aggregateAndRequestDecryption id ev oid) Hs)
    as [Hs' _].
  rewrite Hstep in Hs'.
  destruct (run_all_mismatched after s' Hs') as [Hafter Hnone].
  assert (Hplain : plain32 decision = (if 100 <=? total mod 2 ^ 32 then 1 else 0))
    by apply resultToDecrypt_plain.
  rewrite aggregateAndRequestDecryption_eq in Hagg.
  repeat (match type of Hagg with
          | (if ?b then _ else _) = _ => destruct b; try discriminate
          end).
  injection Hagg as Hev _ Hlog.
  split; [|split; [|split; [|split; [|split; [|split]]]]].
  - subst decision. rewrite <- Hev, <- Hlog. reflexivity.
  - exact Hplain.
  - intros E. rewrite Hplain, E. reflexivity.
  - intros E. rewrite Hplain, E. reflexivity.
  - intros ctx' cleartexts proof. destruct (Hafter oid) as [Hp Hh].
    rewrite callback_exec, myCallback_eq, Hp.
    assert (E : (_hashCiphertexts this ctsToVerify
                 =? stateHash (decryptionContexts (run this s' after) oid)) = false)
      by (apply Z.eqb_neq; congruence).
    rewrite E. reflexivity.
  - apply (Hafter oid).
  - exact Hnone.
Qed.

End Disclosure.

(** C7 on the stand-in: bob requests the decision over encrypted(10) and
    encrypted(95); its plaintext is 1, yet the oracle's answer 1 reverts
    with [StateMismatch] and nothing is disclosed. *)
Lemma C7_the_decision_is_never_disclosed_witness :
  plain32 (Lib := Mock.lib)
          (resultToDecrypt (L := Mock.lib)
             (_initIfNeeded (L := Mock.lib) (Mock.encrypted 10, Mock.encrypted 95))) = 1
  /\ snd (exec (K := Mock.keccak) (L := Mock.lib) Mock.contract_address
               Mock.requested Mock.answer_tx)
     = Reverted StateMismatch
  /\ disclosed (flat_map log_of
                  (receipts (K := Mock.keccak) (L := Mock.lib) Mock.contract_address
                            Mock.requested [Mock.answer_tx]))
     = [].
Proof.
  assert (Hnz : keccak256_encode (Keccak := Mock.keccak) [0] Mock.contract_address <> 0)
    by (vm_compute; discriminate).
  assert (Hagg : aggregateAndRequestDecryption
                   (K := Mock.keccak) (L := Mock.lib) Mock.contract_address
                   (Mock.at_time Mock.bob 1003) 1
                   (Mock.encrypted 10, Mock.encrypted 95) 7
                   (run (K := Mock.keccak) (L := Mock.lib) Mock.contract_address
                        (fst (constructor (Mock.at_time Mock.alice 1000)))
                        [(Mock.at_time Mock.alice 1001, Call_addProvider Mock.bob);
                         (Mock.at_time Mock.alice 1002, Call_openBatch)])
                 = Ok (_initIfNeeded (L := Mock.lib) (Mock.encrypted 10, Mock.encrypted 95),
                       Mock.requested,
                       [RequestDecryption [4294967297] 7; Emit (DecryptionRequested 7 1)]))
    by (vm_compute; reflexivity).
  pose proof (C7_the_decision_is_never_disclosed
                (K := Mock.keccak) (L := Mock.lib) (HL := mock_lib_lawful)
                Mock.contract_address (mock_keccak_separates Mock.contract_address)
                (Mock.at_time Mock.alice 1000)
                [(Mock.at_time Mock.alice 1001, Call_addProvider Mock.bob);
                 (Mock.at_time Mock.alice 1002, Call_openBatch)]
                [Mock.answer_tx]
                (Mock.at_time Mock.bob 1003) 1 (Mock.encrypted 10, Mock.encrypted 95) 7
                _ _ _ Hnz Hagg)
    as (_ & _ & H105 & _ & Hcb & _ & Hnone).
  split; [apply H105; reflexivity|].
  split; [|exact Hnone].
  exact (f_equal snd (Hcb (Mock.at_time Mock.carol 1010) (abi_encode_uint32 1)
                          Mock.some_proof)).
Defined.
